(** * tmux-psutil-applet: a shallow embedding of [applet.py]

    The applet samples four resource metrics through [psutil], classifies
    each against a warning and a critical threshold, keeps the most severe
    result and prints one tmux status line.

    Conventions of the embedding:
    - numbers the collaborator returns (percentages) and thresholds are
      rationals [Q]; Python compares ints and floats by value, so [Qlt] and
      [Qeq] are the source's [<] and [==] on every finite number;
    - [str] of such a number is the interpreter's business and is a
      parameter of the development ([str_num]); [str] of an [int] is decimal
      and is written out ([str_int]);
    - a [str] is the sequence of bytes of its UTF-8 encoding: the braces
      that [format] looks for are single bytes, and no byte of a longer
      character equals one;
    - a raised exception is the [Raise] branch of [result];
    - standard output is a text stream: the text it has taken so far, and
      for each text whether its [write] takes it or raises, as it does when
      the encoding of the stream has not the arrow character of the status
      line. *)

From Stdlib Require Import List String Ascii Bool ZArith QArith Lqa.
From Stdlib Require Import Qround DecimalString Permutation.
Import ListNotations.
Open Scope string_scope.
Open Scope Q_scope.

(** ** Exceptions and the error monad *)

Inductive exn : Type :=
| KeyError (key : string)
| ValueError (msg : string)
| IndexError
| OSError (msg : string)
| UnicodeEncodeError.

Inductive result (A : Type) : Type :=
| Ok (a : A)
| Raise (e : exn).
Arguments Ok {A} a.
Arguments Raise {A} e.

Definition bind {A B : Type} (m : result A) (k : A -> result B) : result B :=
  match m with
  | Ok a => k a
  | Raise e => Raise e
  end.

Notation "x <- m ;; k" := (bind m (fun x => k))
  (at level 61, m at next level, right associativity).

(** A list comprehension whose element expression may raise: elements are
    evaluated left to right and the first exception ends the evaluation. *)
Fixpoint comprehension {A B : Type} (f : A -> result B) (l : list A)
  : result (list B) :=
  match l with
  | [] => Ok []
  | a :: l' =>
      b <- f a ;;
      bs <- comprehension f l' ;;
      Ok (b :: bs)
  end.

(** [l[0]]: the first element, [IndexError] on the empty list. *)
Definition item0 {A : Type} (l : list A) : result A :=
  match l with
  | [] => Raise IndexError
  | a :: _ => Ok a
  end.

(** ** Python's [str.format], restricted to keyword fields

    The template is scanned left to right. A doubled brace is an escaped
    brace; [{name}] is replaced by the keyword argument [name] (values are
    inserted as they are, never scanned again); a missing keyword raises
    [KeyError]; a lone closing brace or an unclosed field raises
    [ValueError]. Conversions, format specifications and positional fields
    do not occur in the applet and are not given a meaning: such a field is
    looked up by its whole text and raises. *)

Definition kwargs : Type := list (string * string).

Fixpoint lookup (name : string) (kw : kwargs) : option string :=
  match kw with
  | [] => None
  | (k, v) :: kw' => if String.eqb k name then Some v else lookup name kw'
  end.

Definition lbrace : ascii := "{"%char.
Definition rbrace : ascii := "}"%char.

(** [field = None]: scanning literal text; [field = Some n]: inside a
    replacement field whose name read so far is [n]. *)
Fixpoint format_scan (kw : kwargs) (field : option string) (s : string)
  : result string :=
  match field with
  | None =>
      match s with
      | EmptyString => Ok EmptyString
      | String c rest =>
          if Ascii.eqb c lbrace then
            match rest with
            | String c' rest' =>
                if Ascii.eqb c' lbrace
                then r <- format_scan kw None rest' ;; Ok (String lbrace r)
                else format_scan kw (Some EmptyString) rest
            | EmptyString =>
                Raise (ValueError "Single '{' encountered in format string")
            end
          else if Ascii.eqb c rbrace then
            match rest with
            | String c' rest' =>
                if Ascii.eqb c' rbrace
                then r <- format_scan kw None rest' ;; Ok (String rbrace r)
                else
                  Raise (ValueError "Single '}' encountered in format string")
            | EmptyString =>
                Raise (ValueError "Single '}' encountered in format string")
            end
          else r <- format_scan kw None rest ;; Ok (String c r)
      end
  | Some name =>
      match s with
      | EmptyString => Raise (ValueError "expected '}' before end of string")
      | String c rest =>
          if Ascii.eqb c rbrace then
            match lookup name kw with
            | Some v => r <- format_scan kw None rest ;; Ok (v ++ r)
            | None => Raise (KeyError name)
            end
          else format_scan kw (Some (name ++ String c EmptyString)) rest
      end
  end.

Definition format (template : string) (kw : kwargs) : result string :=
  format_scan kw None template.

(** [str] of a Python [int]. *)
Definition str_int (z : Z) : string := NilZero.string_of_int (Z.to_int z).

(** ** Threshold and colour constants (applet.py, lines 8-30) *)

Definition CPU_USAGE_WARN : Q := 80.
Definition CPU_USAGE_CRIT : Q := 90.

Definition MEMORY_USAGE_WARN : Q := 80.
Definition MEMORY_USAGE_CRIT : Q := 90.

Definition DISK_USAGE_WARN : Q := 70.
Definition DISK_USAGE_CRIT : Q := 90.

Definition SWAP_USAGE_WARN : Q := 20.
Definition SWAP_USAGE_CRIT : Q := 50.

Definition FG_COLOR_OK : Z := 17.
Definition BG_COLOR_OK : Z := 190.
Definition FG_COLOR_WARN : Z := 0.
Definition BG_COLOR_WARN : Z := 220.
Definition FG_COLOR_CRIT : Z := 255.
Definition BG_COLOR_CRIT : Z := 196.

(** ** Status values (lines 32-56) *)

Inductive StatusCode : Type := OK | WARNING | CRITICAL | UNKNOWN.

Definition StatusCode_value (c : StatusCode) : Z :=
  match c with
  | OK => 0
  | WARNING => 1
  | CRITICAL => 2
  | UNKNOWN => -1
  end%Z.

Definition StatusCode_eqb (a b : StatusCode) : bool :=
  match a, b with
  | OK, OK | WARNING, WARNING | CRITICAL, CRITICAL | UNKNOWN, UNKNOWN => true
  | _, _ => false
  end.

Record Status : Type := mkStatus { code : StatusCode; text : string }.

(** Lines 41-45, [StatusCode.__str__]: the name of the member. *)
Definition StatusCode_str (c : StatusCode) : string :=
  match c with
  | OK => "OK"
  | WARNING => "WARNING"
  | CRITICAL => "CRITICAL"
  | UNKNOWN => "UNKNOWN"
  end.

(** Lines 55-56, [Status.__str__]. A member of an enumeration that defines
    [__str__] is formatted through it. *)
Definition Status_str (st : Status) : result string :=
  format "{status}: {text}"
         [("status", StatusCode_str (code st)); ("text", text st)].

(** ** The collaborator *)

(** The tuples [psutil] returns carry more fields; the applet reads only
    these. *)
Record usage_info : Type := { percent : Q }.
Record sdiskpart : Type := { mountpoint : string }.

(** One run's answers of the operating system. Each query either returns or
    raises. *)
Record psutil : Type := {
  cpu_percent : Z -> result Q;
  virtual_memory : result usage_info;
  swap_memory : result usage_info;
  disk_partitions : result (list sdiskpart);
  disk_usage : string -> result usage_info
}.

(** The text stream [sys.stdout]: for a text handed to its [write],
    [None] when the stream takes it, or the exception that [write] raises,
    [UnicodeEncodeError] when the encoding of the stream has not one of the
    characters of the text. *)
Record stream : Type := { fault : string -> option exn }.

(** The source's [a > b] and [a < b] on numbers. *)
Definition num_gt (a b : Q) : bool := negb (Qle_bool a b).
Definition num_lt (a b : Q) : bool := num_gt b a.

(** A parameter declared with a default value: [None] is the argument left
    out at the call. *)
Definition arg_or {A : Type} (arg : option A) (default : A) : A :=
  match arg with
  | Some a => a
  | None => default
  end.

Section Applet.

(** Python's [str] on the numbers the collaborator returns. *)
Variable str_num : Q -> string.

(** ** The checkers (lines 59-135) *)

(** Lines 59-70. *)
Definition check_cpu_usage (os : psutil) (warn crit : option Q)
  : result Status :=
  let warn := arg_or warn CPU_USAGE_WARN in
  let crit := arg_or crit CPU_USAGE_CRIT in
  usage <- cpu_percent os 1 ;;
  if num_gt usage crit then
    t <- format "CPU: {usage}%" [("usage", str_num usage)] ;;
    Ok (mkStatus CRITICAL t)
  else if num_gt usage warn then
    t <- format "CPU: {usage}%" [("usage", str_num usage)] ;;
    Ok (mkStatus WARNING t)
  else
    t <- format "CPU: {usage}%" [("usage", str_num usage)] ;;
    Ok (mkStatus OK t).

(** Lines 77-81: the partitions and, for each, its mount point and usage. *)
Definition disks_datas (os : psutil) : result (list (string * Q)) :=
  disks <- disk_partitions os ;;
  comprehension
    (fun disk =>
       u <- disk_usage os (mountpoint disk) ;;
       Ok (mountpoint disk, percent u))
    disks.

(** Lines 82-86. *)
Definition disks_criticals (crit : Q) (datas : list (string * Q))
  : list (string * Q) :=
  filter (fun disk_data => num_gt (snd disk_data) crit) datas.

(** Lines 87-90. *)
Definition disks_warnings (warn crit : Q) (datas : list (string * Q))
  : list (string * Q) :=
  filter (fun disk_data =>
            num_gt (snd disk_data) warn && num_lt (snd disk_data) crit)
         datas.

(** Lines 72-109, after the two buckets. *)
Definition check_disk_usage (os : psutil) (warn crit : option Q)
  : result Status :=
  let warn := arg_or warn DISK_USAGE_WARN in
  let crit := arg_or crit DISK_USAGE_CRIT in
  datas <- disks_datas os ;;
  let criticals := disks_criticals crit datas in
  let warnings := disks_warnings warn crit datas in
  if (0 <? List.length criticals)%nat then
    d0 <- item0 criticals ;;
    d1 <- item0 criticals ;;
    t <- format "Disk {mount}: {usage}%"
                [("mount", fst d0); ("usage", str_num (snd d1))] ;;
    Ok (mkStatus CRITICAL t)
  else if (0 <? List.length warnings)%nat then
    d0 <- item0 warnings ;;
    d1 <- item0 warnings ;;
    t <- format "Disk {mount}: {usage}%"
                [("mount", fst d0); ("usage", str_num (snd d1))] ;;
    Ok (mkStatus WARNING t)
  else
    Ok (mkStatus OK "Disks OK").

(** Lines 111-122. *)
Definition check_memory_usage (os : psutil) (warn crit : option Q)
  : result Status :=
  let warn := arg_or warn MEMORY_USAGE_WARN in
  let crit := arg_or crit MEMORY_USAGE_CRIT in
  usage <- virtual_memory os ;;
  if num_gt (percent usage) crit then
    t <- format "Memory: {usage}%" [("usage", str_num (percent usage))] ;;
    Ok (mkStatus CRITICAL t)
  else if num_gt (percent usage) warn then
    t <- format "Memory: {usage}%" [("usage", str_num (percent usage))] ;;
    Ok (mkStatus WARNING t)
  else
    t <- format "Memory: {usage}%" [("usage", str_num (percent usage))] ;;
    Ok (mkStatus OK t).

(** Lines 124-135. *)
Definition check_swap_usage (os : psutil) (warn crit : option Q)
  : result Status :=
  let warn := arg_or warn SWAP_USAGE_WARN in
  let crit := arg_or crit SWAP_USAGE_CRIT in
  usage <- swap_memory os ;;
  if num_gt (percent usage) crit then
    t <- format "Swap: {usage}%" [("usage", str_num (percent usage))] ;;
    Ok (mkStatus CRITICAL t)
  else if num_gt (percent usage) warn then
    t <- format "Swap: {usage}%" [("usage", str_num (percent usage))] ;;
    Ok (mkStatus WARNING t)
  else
    t <- format "Swap: {usage}%" [("usage", str_num (percent usage))] ;;
    Ok (mkStatus OK t).

(** ** The entry point (lines 137-176) *)

(** Lines 141-146: the checkers, each later called without arguments. *)
Definition check_definitions : list (psutil -> result Status) :=
  [ fun os => check_cpu_usage os None None;
    fun os => check_memory_usage os None None;
    fun os => check_disk_usage os None None;
    fun os => check_swap_usage os None None ].

(** Line 148. *)
Definition run_checks (os : psutil) : result (list Status) :=
  comprehension (fun check => check os) check_definitions.

(** Line 149 and after: [e.code == StatusCode.X]. *)
Definition has_code (c : StatusCode) (e : Status) : bool :=
  StatusCode_eqb (code e) c.

(** The three locals [main] assigns in lines 152-163. *)
Record Selection : Type := {
  bg_color : Z;
  fg_color : Z;
  line_text : string
}.

(** Lines 149-163. *)
Definition choose (checks : list Status) : result Selection :=
  let have_criticals := existsb (has_code CRITICAL) checks in
  let have_warnings := existsb (has_code WARNING) checks in
  if have_criticals then
    t <- item0 (map text (filter (has_code CRITICAL) checks)) ;;
    Ok {| bg_color := BG_COLOR_CRIT; fg_color := FG_COLOR_CRIT;
          line_text := t |}
  else if have_warnings then
    t <- item0 (map text (filter (has_code WARNING) checks)) ;;
    Ok {| bg_color := BG_COLOR_WARN; fg_color := FG_COLOR_WARN;
          line_text := t |}
  else
    Ok {| bg_color := BG_COLOR_OK; fg_color := FG_COLOR_OK;
          line_text := "OK" |}.

(** The character U+E0B2, the left-pointing arrow of the powerline fonts,
    which opens the second and the fourth literal: bytes EE 82 B2. *)
Definition arrow : string :=
  String "238"%char (String "130"%char (String "178"%char EmptyString)).

(** The four string literals of lines 166-169. *)
Definition literal_1 : string := "#[fg=colour{bg_color},bg=colour238]".
Definition literal_2 : string :=
  arrow ++ "#[fg=colour{fg_color},bg=colour{bg_color}]".
Definition literal_3 : string := "{text} #[fg=colour238,bg=colour{bg_color}]".
Definition literal_4 : string := arrow ++ "#[fg=colour255,bg=colour238]".

(** The keyword arguments of lines 170-172. *)
Definition line_kwargs (sel : Selection) : kwargs :=
  [("bg_color", str_int (bg_color sel));
   ("fg_color", str_int (fg_color sel));
   ("text", line_text sel)].

(** Lines 166-172, the argument of [print]. A method call binds tighter than
    [+]: [format] is applied to the fourth literal alone, and its result is
    appended to the first three. *)
Definition status_line (sel : Selection) : result string :=
  last <- format literal_4 (line_kwargs sel) ;;
  Ok (literal_1 ++ literal_2 ++ literal_3 ++ last).

Definition newline : string := String (ascii_of_nat 10) EmptyString.

(** Actions that write to standard output and may raise. *)
Definition io (A : Type) : Type := string -> string * result A.

Definition lift {A : Type} (m : result A) : io A := fun out => (out, m).

Definition io_bind {A B : Type} (m : io A) (k : A -> io B) : io B :=
  fun out =>
    match m out with
    | (out', Ok a) => k a out'
    | (out', Raise e) => (out', Raise e)
    end.

(** [stdout.write(s)]: the text is taken whole or not at all. *)
Definition write (stdout : stream) (s : string) : io unit :=
  fun out =>
    match fault stdout s with
    | Some e => (out, Raise e)
    | None => (out ++ s, Ok tt)
    end.

(** [print(s)] writes the text, then the line feed. *)
Definition print (stdout : stream) (s : string) : io unit :=
  io_bind (write stdout s) (fun _ => write stdout newline).

Definition main (stdout : stream) (os : psutil) : io unit :=
  io_bind (lift (run_checks os)) (fun checks =>
  io_bind (lift (choose checks)) (fun sel =>
  io_bind (lift (status_line sel)) (fun line =>
  print stdout line))).

(** Lines 175-176 run as a script: what reached standard output, and the
    exit status ([0] when [main] returns, [1] on an uncaught exception). *)
Definition script (stdout : stream) (os : psutil) : string * Z :=
  match main stdout os EmptyString with
  | (out, Ok _) => (out, 0%Z)
  | (out, Raise _) => (out, 1%Z)
  end.

End Applet.

(** ** A concrete collaborator and number printer, for running the model *)

(** [str] of a non-negative float with one decimal, which is what the
    percentages of [psutil] are: [42.3], [95.0]. *)
Definition str_percent (q : Q) : string :=
  let tenths := Qfloor (q * 10) in
  str_int (tenths / 10) ++ "." ++ str_int (tenths mod 10).

Fixpoint usage_of (disks : list (string * Q)) (mount : string)
  : result usage_info :=
  match disks with
  | [] => Raise (OSError "No such file or directory")
  | (m, u) :: disks' =>
      if String.eqb m mount then Ok {| percent := u |}
      else usage_of disks' mount
  end.

(** A machine with the given CPU, memory and swap usage and the given
    partitions, each with its usage. *)
Definition machine (cpu mem swap : Q) (disks : list (string * Q)) : psutil :=
  {| cpu_percent := fun _ => Ok cpu;
     virtual_memory := Ok {| percent := mem |};
     swap_memory := Ok {| percent := swap |};
     disk_partitions := Ok (map (fun d => {| mountpoint := fst d |}) disks);
     disk_usage := usage_of disks |}.

(** A machine on which enumerating the partitions fails. *)
Definition machine_no_disks (cpu mem swap : Q) : psutil :=
  {| cpu_percent := fun _ => Ok cpu;
     virtual_memory := Ok {| percent := mem |};
     swap_memory := Ok {| percent := swap |};
     disk_partitions := Raise (OSError "Permission denied");
     disk_usage := fun _ => Raise (OSError "Permission denied") |}.

(** A standard output in UTF-8, which has every character. *)
Definition utf8_stdout : stream := {| fault := fun _ => None |}.

(** The bytes of an ASCII text are all below 128. *)
Fixpoint is_ascii (s : string) : bool :=
  match s with
  | EmptyString => true
  | String c s' => (nat_of_ascii c <? 128)%nat && is_ascii s'
  end.

(** A standard output in ASCII, as under [PYTHONIOENCODING=ascii]. *)
Definition ascii_stdout : stream :=
  {| fault := fun s => if is_ascii s then None else Some UnicodeEncodeError |}.

(** The machines the statements below are run on. *)
Definition idle : psutil := machine 0 0 0 [].
Definition loaded : psutil :=
  machine 85 95 10 [("A", 95); ("B", 50)].
Definition warning_beside_crit : psutil :=
  machine 0 0 0 [("A", 75); ("B", 90)].
Definition partition_at_crit : psutil :=
  machine 90 0 0 [("A", 10); ("B", 90)].

(** A machine with three partitions, the second of which cannot be read. *)
Definition unreadable_partition : psutil :=
  {| cpu_percent := fun _ => Ok 0;
     virtual_memory := Ok {| percent := 0 |};
     swap_memory := Ok {| percent := 0 |};
     disk_partitions :=
       Ok [{| mountpoint := "A" |}; {| mountpoint := "B" |};
           {| mountpoint := "C" |}];
     disk_usage := usage_of [("A", 95); ("C", 50)] |}.

(** The machine [loaded] with its partitions enumerated the other way. *)
Definition loaded_reversed : psutil :=
  machine 85 95 10 [("B", 50); ("A", 95)].

(** A machine whose CPU is above the critical threshold, like its memory
    and its only partition. *)
Definition cpu_bound : psutil := machine 95 95 10 [("A", 95)].

(** A machine whose readings are lower than those of [loaded]. *)
Definition calm : psutil := machine 50 85 10 [("A", 60)].

(** ** Notions used by the statements *)

(** All collaborator queries of a run return: the three scalar readings, the
    enumeration of the partitions and the usage of every partition. *)
Definition queries_return (os : psutil) : Prop :=
  (exists u, cpu_percent os 1 = Ok u) /\
  (exists m, virtual_memory os = Ok m) /\
  (exists s, swap_memory os = Ok s) /\
  (exists datas, disks_datas os = Ok datas).

(** The two-threshold law of the documentation for a reading [u]: the
    status [st] is CRITICAL above [crit], WARNING above [warn] up to and
    including [crit], OK up to and including [warn]. *)
Definition threshold_law (warn crit u : Q) (st : Status) : Prop :=
  (code st = CRITICAL <-> crit < u) /\
  (code st = WARNING <-> warn < u /\ u <= crit) /\
  (code st = OK <-> u <= warn) /\
  (u == warn -> code st = OK) /\
  (u == crit -> code st = WARNING).

(** [l1] is [l2] with some elements left out, the others in their order. *)
Inductive subsequence {A : Type} : list A -> list A -> Prop :=
| subsequence_nil : subsequence [] []
| subsequence_skip x l1 l2 : subsequence l1 l2 -> subsequence l1 (x :: l2)
| subsequence_keep x l1 l2 :
    subsequence l1 l2 -> subsequence (x :: l1) (x :: l2).

(** A status whose severity is one of the three a check can report. *)
Definition reported (st : Status) : Prop :=
  code st = OK \/ code st = WARNING \/ code st = CRITICAL.

(** The output line as the documentation words it (section 6): the
    template with [{fg}], [{bg}] and [{text}] replaced. *)
Definition documented_line (fg bg : Z) (text : string) : string :=
  "#[fg=colour" ++ str_int fg ++ ",bg=colour238]" ++
  "#[fg=colour" ++ str_int fg ++ ",bg=colour" ++ str_int bg ++ "]" ++
  text ++ " #[fg=colour238,bg=colour" ++ str_int bg ++ "]" ++
  "#[fg=colour255,bg=colour238]".

(** The four literals as they stand in the source, one after the other. *)
Definition unfilled_line : string :=
  "#[fg=colour{bg_color},bg=colour238]" ++
  arrow ++ "#[fg=colour{fg_color},bg=colour{bg_color}]" ++
  "{text} #[fg=colour238,bg=colour{bg_color}]" ++
  arrow ++ "#[fg=colour255,bg=colour238]".

(** Standard output takes the two writes of [print] for that line. *)
Definition takes_the_line (stdout : stream) : Prop :=
  fault stdout unfilled_line = None /\ fault stdout newline = None.

(** The same without the two arrows. *)
Definition unfilled_line_without_arrows : string :=
  "#[fg=colour{bg_color},bg=colour238]" ++
  "#[fg=colour{fg_color},bg=colour{bg_color}]" ++
  "{text} #[fg=colour238,bg=colour{bg_color}]" ++
  "#[fg=colour255,bg=colour238]".

(** The characters of [s] that are line feeds. *)
Fixpoint count_newlines (s : string) : nat :=
  match s with
  | EmptyString => 0
  | String c s' =>
      ((if Ascii.eqb c (ascii_of_nat 10) then 1 else 0) + count_newlines s')%nat
  end.

(** What each scalar checker returns once its query has returned [u]. *)
Definition three_way (warn crit u : Q) (t : string) : Status :=
  if num_gt u crit then mkStatus CRITICAL t
  else if num_gt u warn then mkStatus WARNING t
  else mkStatus OK t.

(** The template has no brace, hence no replacement field. *)
Fixpoint brace_free (s : string) : bool :=
  match s with
  | EmptyString => true
  | String c s' =>
      negb (Ascii.eqb c lbrace) && negb (Ascii.eqb c rbrace) && brace_free s'
  end.

(** What [main] has selected when it reaches [print] (lines 148-163). *)
Definition selection (str_num : Q -> string) (os : psutil)
  : result Selection :=
  checks <- run_checks str_num os ;; choose checks.


(** The highest value of the codes of a list of statuses, [0] (the value of
    OK) at least. *)
Definition highest_value (checks : list Status) : Z :=
  fold_right (fun e v => Z.max (StatusCode_value (code e)) v) 0%Z checks.

(** The colour pair [(bg, fg)] that goes with a code value. *)
Definition colours_of_value (v : Z) : Z * Z :=
  if (v =? 2)%Z then (BG_COLOR_CRIT, FG_COLOR_CRIT)
  else if (v =? 1)%Z then (BG_COLOR_WARN, FG_COLOR_WARN)
  else (BG_COLOR_OK, FG_COLOR_OK).

(** ** Comparisons *)

Lemma num_gt_true (a b : Q) : num_gt a b = true <-> b < a.
Proof.
  unfold num_gt. rewrite negb_true_iff. split; intro H.
  - apply Qnot_le_lt. intro Hle. apply Qle_bool_iff in Hle. congruence.
  - destruct (Qle_bool a b) eqn:E; [|reflexivity].
    apply Qle_bool_iff in E. lra.
Qed.

Lemma num_gt_false (a b : Q) : num_gt a b = false <-> a <= b.
Proof.
  unfold num_gt. rewrite negb_false_iff. apply Qle_bool_iff.
Qed.

Lemma num_lt_true (a b : Q) : num_lt a b = true <-> a < b.
Proof. unfold num_lt. apply num_gt_true. Qed.

Lemma num_lt_false (a b : Q) : num_lt a b = false <-> b <= a.
Proof. unfold num_lt. apply num_gt_false. Qed.

(** ** The texts the checkers format *)

Lemma format_cpu (v : string) :
  format "CPU: {usage}%" [("usage", v)] = Ok ("CPU: " ++ v ++ "%").
Proof. reflexivity. Qed.

Lemma format_memory (v : string) :
  format "Memory: {usage}%" [("usage", v)] = Ok ("Memory: " ++ v ++ "%").
Proof. reflexivity. Qed.

Lemma format_swap (v : string) :
  format "Swap: {usage}%" [("usage", v)] = Ok ("Swap: " ++ v ++ "%").
Proof. reflexivity. Qed.

Lemma format_disk (m v : string) :
  format "Disk {mount}: {usage}%" [("mount", m); ("usage", v)]
  = Ok ("Disk " ++ m ++ ": " ++ v ++ "%").
Proof. reflexivity. Qed.

(** A template without braces is its own formatting, whatever the keyword
    arguments. *)
Lemma format_brace_free (kw : kwargs) (s : string) :
  brace_free s = true -> format s kw = Ok s.
Proof.
  unfold format. induction s as [|c s IH]; simpl; intro H.
  - reflexivity.
  - apply andb_true_iff in H. destruct H as [H Hs].
    apply andb_true_iff in H. destruct H as [Hl Hr].
    apply negb_true_iff in Hl. apply negb_true_iff in Hr.
    rewrite Hl, Hr, (IH Hs). reflexivity.
Qed.

Lemma three_way_text (warn crit u : Q) (t : string) :
  text (three_way warn crit u t) = t.
Proof.
  unfold three_way.
  destruct (num_gt u crit); [|destruct (num_gt u warn)]; reflexivity.
Qed.

Lemma three_way_reported (warn crit u : Q) (t : string) :
  reported (three_way warn crit u t).
Proof.
  unfold three_way, reported.
  destruct (num_gt u crit); [|destruct (num_gt u warn)]; simpl; auto.
Qed.

(** The three-way comparison of a scalar checker obeys the law. *)
Lemma scalar_law (warn crit u : Q) (t : string) :
  warn < crit ->
  threshold_law warn crit u (three_way warn crit u t).
Proof.
  intro Hwc. unfold threshold_law, three_way.
  destruct (num_gt u crit) eqn:Hc;
    [apply num_gt_true in Hc | apply num_gt_false in Hc];
    [| destruct (num_gt u warn) eqn:Hw;
       [apply num_gt_true in Hw | apply num_gt_false in Hw]];
    simpl; repeat split; intros; try discriminate; try lra.
Qed.

Section Properties.

Variable str_num : Q -> string.

(** ** Defaults *)

(** C6. The compiled-in thresholds are CPU 80/90, memory 80/90, disk 70/90
    and swap 20/50; the colour pairs are OK 17 on 190, WARNING 0 on 220 and
    CRITICAL 255 on 196; and a checker called without [warn] or [crit] uses
    the pair of its own metric. *)
Theorem default_thresholds_and_colours :
  (CPU_USAGE_WARN = 80 /\ CPU_USAGE_CRIT = 90) /\
  (MEMORY_USAGE_WARN = 80 /\ MEMORY_USAGE_CRIT = 90) /\
  (DISK_USAGE_WARN = 70 /\ DISK_USAGE_CRIT = 90) /\
  (SWAP_USAGE_WARN = 20 /\ SWAP_USAGE_CRIT = 50) /\
  (FG_COLOR_OK = 17 /\ BG_COLOR_OK = 190)%Z /\
  (FG_COLOR_WARN = 0 /\ BG_COLOR_WARN = 220)%Z /\
  (FG_COLOR_CRIT = 255 /\ BG_COLOR_CRIT = 196)%Z /\
  (forall os warn crit,
      check_cpu_usage str_num os None None
        = check_cpu_usage str_num os (Some 80) (Some 90) /\
      check_cpu_usage str_num os (Some warn) None
        = check_cpu_usage str_num os (Some warn) (Some 90) /\
      check_cpu_usage str_num os None (Some crit)
        = check_cpu_usage str_num os (Some 80) (Some crit) /\
      check_memory_usage str_num os None None
        = check_memory_usage str_num os (Some 80) (Some 90) /\
      check_memory_usage str_num os (Some warn) None
        = check_memory_usage str_num os (Some warn) (Some 90) /\
      check_memory_usage str_num os None (Some crit)
        = check_memory_usage str_num os (Some 80) (Some crit) /\
      check_disk_usage str_num os None None
        = check_disk_usage str_num os (Some 70) (Some 90) /\
      check_disk_usage str_num os (Some warn) None
        = check_disk_usage str_num os (Some warn) (Some 90) /\
      check_disk_usage str_num os None (Some crit)
        = check_disk_usage str_num os (Some 70) (Some crit) /\
      check_swap_usage str_num os None None
        = check_swap_usage str_num os (Some 20) (Some 50) /\
      check_swap_usage str_num os (Some warn) None
        = check_swap_usage str_num os (Some warn) (Some 50) /\
      check_swap_usage str_num os None (Some crit)
        = check_swap_usage str_num os (Some 20) (Some crit)).
Proof.
  repeat split; reflexivity.
Qed.

(** ** The scalar checkers *)

Lemma check_cpu_usage_returns (os : psutil) (warn crit : option Q) (u : Q) :
  cpu_percent os 1 = Ok u ->
  check_cpu_usage str_num os warn crit
  = Ok (three_way (arg_or warn CPU_USAGE_WARN) (arg_or crit CPU_USAGE_CRIT) u
          ("CPU: " ++ str_num u ++ "%")).
Proof.
  intro H. unfold check_cpu_usage, three_way. rewrite H. cbn [bind].
  rewrite format_cpu. cbn [bind].
  destruct (num_gt u _); [|destruct (num_gt u _)]; reflexivity.
Qed.

Lemma check_memory_usage_returns
      (os : psutil) (warn crit : option Q) (m : usage_info) :
  virtual_memory os = Ok m ->
  check_memory_usage str_num os warn crit
  = Ok (three_way (arg_or warn MEMORY_USAGE_WARN)
          (arg_or crit MEMORY_USAGE_CRIT) (percent m)
          ("Memory: " ++ str_num (percent m) ++ "%")).
Proof.
  intro H. unfold check_memory_usage, three_way. rewrite H. cbn [bind].
  rewrite format_memory. cbn [bind].
  destruct (num_gt (percent m) _); [|destruct (num_gt (percent m) _)];
    reflexivity.
Qed.

Lemma check_swap_usage_returns
      (os : psutil) (warn crit : option Q) (s : usage_info) :
  swap_memory os = Ok s ->
  check_swap_usage str_num os warn crit
  = Ok (three_way (arg_or warn SWAP_USAGE_WARN)
          (arg_or crit SWAP_USAGE_CRIT) (percent s)
          ("Swap: " ++ str_num (percent s) ++ "%")).
Proof.
  intro H. unfold check_swap_usage, three_way. rewrite H. cbn [bind].
  rewrite format_swap. cbn [bind].
  destruct (num_gt (percent s) _); [|destruct (num_gt (percent s) _)];
    reflexivity.
Qed.

(** C3. With [warn < crit], the CPU, memory and swap checkers return a
    status that is CRITICAL iff the reading is above [crit], WARNING iff it
    is above [warn] and at most [crit], OK iff it is at most [warn]; a
    reading equal to [warn] is OK and one equal to [crit] is WARNING. The
    text is the metric's name, the reading and a percent sign in every
    branch. *)
Theorem scalar_checkers_two_thresholds :
  forall (os : psutil) (warn crit u : Q) (m s : usage_info),
    warn < crit ->
    cpu_percent os 1 = Ok u ->
    virtual_memory os = Ok m ->
    swap_memory os = Ok s ->
    (exists st,
        check_cpu_usage str_num os (Some warn) (Some crit) = Ok st /\
        text st = "CPU: " ++ str_num u ++ "%" /\
        threshold_law warn crit u st) /\
    (exists st,
        check_memory_usage str_num os (Some warn) (Some crit) = Ok st /\
        text st = "Memory: " ++ str_num (percent m) ++ "%" /\
        threshold_law warn crit (percent m) st) /\
    (exists st,
        check_swap_usage str_num os (Some warn) (Some crit) = Ok st /\
        text st = "Swap: " ++ str_num (percent s) ++ "%" /\
        threshold_law warn crit (percent s) st).
Proof.
  intros os warn crit u m s Hwc Hcpu Hmem Hswap.
  split; [|split]; eexists; (split; [|split]).
  - apply (check_cpu_usage_returns _ _ _ _ Hcpu).
  - apply three_way_text.
  - apply scalar_law, Hwc.
  - apply (check_memory_usage_returns _ _ _ _ Hmem).
  - apply three_way_text.
  - apply scalar_law, Hwc.
  - apply (check_swap_usage_returns _ _ _ _ Hswap).
  - apply three_way_text.
  - apply scalar_law, Hwc.
Qed.

(** ** The disk checker *)

Lemma filter_subsequence {A : Type} (p : A -> bool) (l : list A) :
  subsequence (filter p l) l.
Proof.
  induction l as [|a l IH]; simpl.
  - constructor.
  - destruct (p a); constructor; exact IH.
Qed.

Lemma hd_error_filter {A : Type} (p : A -> bool) (l : list A) :
  hd_error (filter p l) = find p l.
Proof.
  induction l as [|a l IH]; simpl.
  - reflexivity.
  - destruct (p a); [reflexivity | exact IH].
Qed.

(** The status built from the two buckets (lines 92-109). *)
Lemma check_disk_usage_returns
      (os : psutil) (warn crit : option Q) (datas : list (string * Q)) :
  disks_datas os = Ok datas ->
  check_disk_usage str_num os warn crit =
  match disks_criticals (arg_or crit DISK_USAGE_CRIT) datas with
  | (mount, usage) :: _ =>
      Ok (mkStatus CRITICAL ("Disk " ++ mount ++ ": " ++ str_num usage ++ "%"))
  | [] =>
      match disks_warnings (arg_or warn DISK_USAGE_WARN)
                           (arg_or crit DISK_USAGE_CRIT) datas with
      | (mount, usage) :: _ =>
          Ok (mkStatus WARNING
                ("Disk " ++ mount ++ ": " ++ str_num usage ++ "%"))
      | [] => Ok (mkStatus OK "Disks OK")
      end
  end.
Proof.
  intro H. unfold check_disk_usage. rewrite H. cbn [bind].
  destruct (disks_criticals _ datas) as [|[mc uc] lc].
  - destruct (disks_warnings _ _ datas) as [|[mw uw] lw].
    + reflexivity.
    + cbn [List.length Nat.ltb Nat.leb item0 bind fst snd].
      rewrite format_disk. reflexivity.
  - cbn [List.length Nat.ltb Nat.leb item0 bind fst snd].
    rewrite format_disk. reflexivity.
Qed.

Lemma disks_criticals_In (crit : Q) (datas : list (string * Q)) d :
  In d (disks_criticals crit datas) <-> In d datas /\ crit < snd d.
Proof.
  unfold disks_criticals. rewrite filter_In, num_gt_true. reflexivity.
Qed.

Lemma disks_warnings_In (warn crit : Q) (datas : list (string * Q)) d :
  In d (disks_warnings warn crit datas)
  <-> In d datas /\ warn < snd d /\ snd d < crit.
Proof.
  unfold disks_warnings.
  rewrite filter_In, andb_true_iff, num_gt_true, num_lt_true. reflexivity.
Qed.

(** C4. For the partitions in enumeration order with their usage: the
    criticals are those above [crit] and the warnings those strictly
    between [warn] and [crit], both in enumeration order, their first
    entries being the first such partitions of the enumeration; the checker
    returns CRITICAL with the text of the first critical, else WARNING with
    the text of the first warning, else OK with [Disks OK]. It holds for all
    thresholds, those with [warn < crit] among them. *)
Theorem disk_checker_first_of_each_bucket :
  forall (os : psutil) (warn crit : Q) (datas : list (string * Q)),
    disks_datas os = Ok datas ->
    let criticals := disks_criticals crit datas in
    let warnings := disks_warnings warn crit datas in
    (forall d, In d criticals <-> In d datas /\ crit < snd d) /\
    (forall d, In d warnings <-> In d datas /\ warn < snd d /\ snd d < crit) /\
    subsequence criticals datas /\
    subsequence warnings datas /\
    hd_error criticals = find (fun d => num_gt (snd d) crit) datas /\
    hd_error warnings
      = find (fun d => num_gt (snd d) warn && num_lt (snd d) crit) datas /\
    check_disk_usage str_num os (Some warn) (Some crit) =
    match criticals with
    | (mount, usage) :: _ =>
        Ok (mkStatus CRITICAL
              ("Disk " ++ mount ++ ": " ++ str_num usage ++ "%"))
    | [] =>
        match warnings with
        | (mount, usage) :: _ =>
            Ok (mkStatus WARNING
                  ("Disk " ++ mount ++ ": " ++ str_num usage ++ "%"))
        | [] => Ok (mkStatus OK "Disks OK")
        end
    end.
Proof.
  intros os warn crit datas H criticals warnings.
  split; [intro d; apply disks_criticals_In |].
  split; [intro d; apply disks_warnings_In |].
  split; [apply filter_subsequence |].
  split; [apply filter_subsequence |].
  split; [apply hd_error_filter |].
  split; [apply hd_error_filter |].
  apply (check_disk_usage_returns os (Some warn) (Some crit) datas H).
Qed.

(** C7. When the enumeration of the partitions is empty, both buckets are
    empty and the disk checker returns OK with [Disks OK]: it neither raises
    nor reports UNKNOWN. *)
Theorem no_partitions_disks_ok :
  forall (os : psutil) (warn crit : option Q),
    disk_partitions os = Ok [] ->
    disks_datas os = Ok [] /\
    disks_criticals (arg_or crit DISK_USAGE_CRIT) [] = [] /\
    disks_warnings (arg_or warn DISK_USAGE_WARN)
                   (arg_or crit DISK_USAGE_CRIT) [] = [] /\
    check_disk_usage str_num os warn crit = Ok (mkStatus OK "Disks OK").
Proof.
  intros os warn crit H.
  assert (Hd : disks_datas os = Ok []).
  { unfold disks_datas. rewrite H. reflexivity. }
  repeat split; try assumption.
  rewrite (check_disk_usage_returns os warn crit [] Hd). reflexivity.
Qed.

(** A partition list without a usage above [crit] has no critical. *)
Lemma disks_criticals_nil (crit : Q) (datas : list (string * Q)) :
  Forall (fun d => snd d <= crit) datas -> disks_criticals crit datas = [].
Proof.
  intro H. unfold disks_criticals.
  induction H as [|d l Hd _ IH]; simpl.
  - reflexivity.
  - apply num_gt_false in Hd. rewrite Hd. exact IH.
Qed.

(** A partition list without a usage strictly between the thresholds has no
    warning. *)
Lemma disks_warnings_nil (warn crit : Q) (datas : list (string * Q)) :
  Forall (fun d => snd d <= warn \/ crit <= snd d) datas ->
  disks_warnings warn crit datas = [].
Proof.
  intro H. unfold disks_warnings.
  induction H as [|d l Hd _ IH]; simpl.
  - reflexivity.
  - destruct Hd as [Hd|Hd].
    + apply num_gt_false in Hd. rewrite Hd. exact IH.
    + apply num_lt_false in Hd. rewrite Hd, andb_false_r. exact IH.
Qed.

(** C10, amended. With [warn < crit], when every partition is at most at
    [warn] or exactly at [crit], and one is exactly at [crit], both buckets
    are empty and the disk checker returns OK with [Disks OK], although a
    scalar checker whose reading is exactly [crit] returns WARNING. *)
Theorem partitions_at_crit_disks_ok :
  forall (os : psutil) (warn crit : Q) (datas : list (string * Q)),
    warn < crit ->
    disks_datas os = Ok datas ->
    Forall (fun d => snd d <= warn \/ snd d == crit) datas ->
    Exists (fun d => snd d == crit) datas ->
    disks_criticals crit datas = [] /\
    disks_warnings warn crit datas = [] /\
    check_disk_usage str_num os (Some warn) (Some crit)
      = Ok (mkStatus OK "Disks OK") /\
    (forall u, cpu_percent os 1 = Ok u -> u == crit ->
       exists st, check_cpu_usage str_num os (Some warn) (Some crit) = Ok st
                  /\ code st = WARNING).
Proof.
  intros os warn crit datas Hwc Hd Hall _.
  assert (Hc : disks_criticals crit datas = []).
  { apply disks_criticals_nil. eapply Forall_impl; [|exact Hall].
    simpl. intros d [H|H]; lra. }
  assert (Hw : disks_warnings warn crit datas = []).
  { apply disks_warnings_nil. eapply Forall_impl; [|exact Hall].
    simpl. intros d [H|H]; [left; exact H | right; lra]. }
  split; [exact Hc | split; [exact Hw | split]].
  - rewrite (check_disk_usage_returns os (Some warn) (Some crit) datas Hd).
    cbn [arg_or]. rewrite Hc, Hw. reflexivity.
  - intros u Hu Heq. eexists. split.
    + apply (check_cpu_usage_returns _ _ _ _ Hu).
    + apply scalar_law; assumption.
Qed.

(** ** The aggregator *)

Lemma has_code_true (c : StatusCode) (e : Status) :
  has_code c e = true <-> code e = c.
Proof.
  unfold has_code. destruct (code e), c; simpl; split; congruence.
Qed.

Lemma existsb_find {A : Type} (p : A -> bool) (l : list A) :
  existsb p l = match find p l with Some _ => true | None => false end.
Proof.
  induction l as [|a l IH]; simpl.
  - reflexivity.
  - destruct (p a); [reflexivity | exact IH].
Qed.

Lemma item0_map_filter {A B : Type} (f : A -> B) (p : A -> bool) (l : list A) :
  item0 (map f (filter p l))
  = match find p l with Some a => Ok (f a) | None => Raise IndexError end.
Proof.
  induction l as [|a l IH]; simpl.
  - reflexivity.
  - destruct (p a); [reflexivity | exact IH].
Qed.

Lemma find_any {A : Type} (p : A -> bool) (l : list A) :
  (exists a, In a l /\ p a = true) -> exists a, find p l = Some a.
Proof.
  intros [a [Hin Hp]]. destruct (find p l) as [b|] eqn:E.
  - exists b. reflexivity.
  - rewrite (find_none p l E a Hin) in Hp. discriminate.
Qed.

Lemma find_nobody {A : Type} (p : A -> bool) (l : list A) :
  (forall a, In a l -> p a = false) -> find p l = None.
Proof.
  intro H. destruct (find p l) as [b|] eqn:E; [|reflexivity].
  apply find_some in E. destruct E as [Hin Hp].
  rewrite (H b Hin) in Hp. discriminate.
Qed.

(** [choose] never raises: the index [0] is taken of a list that the test
    before it has found non-empty. *)
Lemma choose_find (checks : list Status) :
  choose checks =
  match find (has_code CRITICAL) checks with
  | Some e => Ok {| bg_color := BG_COLOR_CRIT; fg_color := FG_COLOR_CRIT;
                    line_text := text e |}
  | None =>
      match find (has_code WARNING) checks with
      | Some e => Ok {| bg_color := BG_COLOR_WARN; fg_color := FG_COLOR_WARN;
                        line_text := text e |}
      | None => Ok {| bg_color := BG_COLOR_OK; fg_color := FG_COLOR_OK;
                      line_text := "OK" |}
      end
  end.
Proof.
  unfold choose. rewrite !existsb_find, !item0_map_filter.
  destruct (find (has_code CRITICAL) checks);
    [reflexivity | destruct (find (has_code WARNING) checks); reflexivity].
Qed.

Lemma run_checks_returns (os : psutil) (c m d s : Status) :
  check_cpu_usage str_num os None None = Ok c ->
  check_memory_usage str_num os None None = Ok m ->
  check_disk_usage str_num os None None = Ok d ->
  check_swap_usage str_num os None None = Ok s ->
  run_checks str_num os = Ok [c; m; d; s].
Proof.
  intros Hc Hm Hd Hs. unfold run_checks, check_definitions.
  cbn [comprehension]. rewrite Hc, Hm, Hd, Hs. reflexivity.
Qed.

Lemma run_checks_inv (os : psutil) (checks : list Status) :
  run_checks str_num os = Ok checks ->
  exists c m d s,
    checks = [c; m; d; s] /\
    check_cpu_usage str_num os None None = Ok c /\
    check_memory_usage str_num os None None = Ok m /\
    check_disk_usage str_num os None None = Ok d /\
    check_swap_usage str_num os None None = Ok s.
Proof.
  unfold run_checks, check_definitions. cbn [comprehension].
  destruct (check_cpu_usage str_num os None None) as [c|]; [|discriminate].
  destruct (check_memory_usage str_num os None None) as [m|]; [|discriminate].
  destruct (check_disk_usage str_num os None None) as [d|]; [|discriminate].
  destruct (check_swap_usage str_num os None None) as [s|]; [|discriminate].
  cbn [bind]. intro H. injection H as <-.
  exists c, m, d, s. repeat split.
Qed.

(** C2. The four statuses are taken in the order CPU, memory, disk, swap.
    If one is CRITICAL, the text kept is that of the first CRITICAL one and
    the colours are 255 on 196; otherwise, if one is WARNING, the text is
    that of the first WARNING one and the colours are 0 on 220; otherwise
    the text is [OK] and the colours are 17 on 190. *)
Theorem aggregator_first_of_highest_severity :
  forall (os : psutil) (c m d s : Status),
    check_cpu_usage str_num os None None = Ok c ->
    check_memory_usage str_num os None None = Ok m ->
    check_disk_usage str_num os None None = Ok d ->
    check_swap_usage str_num os None None = Ok s ->
    let checks := [c; m; d; s] in
    run_checks str_num os = Ok checks /\
    ((exists e, In e checks /\ code e = CRITICAL) ->
     exists e, find (has_code CRITICAL) checks = Some e /\
               code e = CRITICAL /\
               choose checks = Ok {| bg_color := 196; fg_color := 255;
                                     line_text := text e |}) /\
    ((forall e, In e checks -> code e <> CRITICAL) ->
     (exists e, In e checks /\ code e = WARNING) ->
     exists e, find (has_code WARNING) checks = Some e /\
               code e = WARNING /\
               choose checks = Ok {| bg_color := 220; fg_color := 0;
                                     line_text := text e |}) /\
    ((forall e, In e checks -> code e <> CRITICAL /\ code e <> WARNING) ->
     choose checks = Ok {| bg_color := 190; fg_color := 17;
                           line_text := "OK" |}).
Proof.
  intros os c m d s Hc Hm Hd Hs checks.
  split; [apply run_checks_returns; assumption |].
  rewrite choose_find. split; [|split].
  - intros [e [Hin He]].
    destruct (find_any (has_code CRITICAL) checks) as [e' E].
    { exists e. split; [exact Hin | apply has_code_true; exact He]. }
    exists e'. rewrite E. split; [reflexivity|]. split; [|reflexivity].
    apply find_some in E. apply has_code_true, E.
  - intros Hno [e [Hin He]].
    rewrite (find_nobody (has_code CRITICAL) checks).
    2:{ intros a Ha. destruct (has_code CRITICAL a) eqn:E; [|reflexivity].
        apply has_code_true in E. destruct (Hno a Ha E). }
    destruct (find_any (has_code WARNING) checks) as [e' E].
    { exists e. split; [exact Hin | apply has_code_true; exact He]. }
    exists e'. rewrite E. split; [reflexivity|]. split; [|reflexivity].
    apply find_some in E. apply has_code_true, E.
  - intro Hno.
    rewrite (find_nobody (has_code CRITICAL) checks),
            (find_nobody (has_code WARNING) checks).
    + reflexivity.
    + intros a Ha. destruct (has_code WARNING a) eqn:E; [|reflexivity].
      apply has_code_true in E. destruct (proj2 (Hno a Ha) E).
    + intros a Ha. destruct (has_code CRITICAL a) eqn:E; [|reflexivity].
      apply has_code_true in E. destruct (proj1 (Hno a Ha) E).
Qed.

(** ** No check reports UNKNOWN *)

Lemma check_cpu_usage_reported (os : psutil) (warn crit : option Q) st :
  check_cpu_usage str_num os warn crit = Ok st -> reported st.
Proof.
  destruct (cpu_percent os 1) as [u|e] eqn:E.
  - rewrite (check_cpu_usage_returns os warn crit u E).
    intro H. injection H as <-. apply three_way_reported.
  - unfold check_cpu_usage. rewrite E. discriminate.
Qed.

Lemma check_memory_usage_reported (os : psutil) (warn crit : option Q) st :
  check_memory_usage str_num os warn crit = Ok st -> reported st.
Proof.
  destruct (virtual_memory os) as [u|e] eqn:E.
  - rewrite (check_memory_usage_returns os warn crit u E).
    intro H. injection H as <-. apply three_way_reported.
  - unfold check_memory_usage. rewrite E. discriminate.
Qed.

Lemma check_swap_usage_reported (os : psutil) (warn crit : option Q) st :
  check_swap_usage str_num os warn crit = Ok st -> reported st.
Proof.
  destruct (swap_memory os) as [u|e] eqn:E.
  - rewrite (check_swap_usage_returns os warn crit u E).
    intro H. injection H as <-. apply three_way_reported.
  - unfold check_swap_usage. rewrite E. discriminate.
Qed.

Lemma check_disk_usage_total
      (os : psutil) (warn crit : option Q) (datas : list (string * Q)) :
  disks_datas os = Ok datas ->
  exists st, check_disk_usage str_num os warn crit = Ok st /\ reported st.
Proof.
  intro E. rewrite (check_disk_usage_returns os warn crit datas E).
  unfold reported.
  destruct (disks_criticals _ datas) as [|[mc uc] lc];
    [destruct (disks_warnings _ _ datas) as [|[mw uw] lw]|];
    eexists; (split; [reflexivity | simpl; auto]).
Qed.

Lemma check_disk_usage_reported (os : psutil) (warn crit : option Q) st :
  check_disk_usage str_num os warn crit = Ok st -> reported st.
Proof.
  destruct (disks_datas os) as [datas|e] eqn:E.
  - destruct (check_disk_usage_total os warn crit datas E) as [st' [H R]].
    rewrite H. intro H'. injection H' as <-. exact R.
  - unfold check_disk_usage. rewrite E. discriminate.
Qed.

Lemma reported_not_unknown (st : Status) : reported st -> code st <> UNKNOWN.
Proof. unfold reported. intros [H|[H|H]]; rewrite H; discriminate. Qed.

(** When the queries return, so do the four checkers called as [main]
    calls them. *)
Lemma checkers_return (os : psutil) (warn crit : option Q) :
  queries_return os ->
  exists c m d s,
    check_cpu_usage str_num os warn crit = Ok c /\
    check_memory_usage str_num os warn crit = Ok m /\
    check_disk_usage str_num os warn crit = Ok d /\
    check_swap_usage str_num os warn crit = Ok s.
Proof.
  intros [[u Hu] [[m Hm] [[s Hs] [datas Hd]]]].
  destruct (check_disk_usage_total os warn crit datas Hd) as [d [Hd' _]].
  do 2 eexists. exists d. eexists. repeat split.
  - apply (check_cpu_usage_returns _ _ _ _ Hu).
  - apply (check_memory_usage_returns _ _ _ _ Hm).
  - exact Hd'.
  - apply (check_swap_usage_returns _ _ _ _ Hs).
Qed.

(** C8. Whatever the collaborator answers and whatever the thresholds, a
    status returned by one of the four checkers has code OK, WARNING or
    CRITICAL, never UNKNOWN, and so has every status the aggregator
    collects; and when the queries return, each checker does return a
    status. *)
Theorem checkers_never_report_unknown :
  forall (os : psutil) (warn crit : option Q),
    (forall st,
        In (Ok st) [check_cpu_usage str_num os warn crit;
                    check_memory_usage str_num os warn crit;
                    check_disk_usage str_num os warn crit;
                    check_swap_usage str_num os warn crit] ->
        reported st /\ code st <> UNKNOWN) /\
    (forall checks,
        run_checks str_num os = Ok checks ->
        Forall (fun st => reported st /\ code st <> UNKNOWN) checks) /\
    (queries_return os ->
     (exists c m d s,
         check_cpu_usage str_num os warn crit = Ok c /\
         check_memory_usage str_num os warn crit = Ok m /\
         check_disk_usage str_num os warn crit = Ok d /\
         check_swap_usage str_num os warn crit = Ok s) /\
     (exists checks, run_checks str_num os = Ok checks)).
Proof.
  intros os warn crit. split; [|split].
  - intros st Hin.
    assert (R : reported st).
    { simpl in Hin. destruct Hin as [H|[H|[H|[H|[]]]]].
      - exact (check_cpu_usage_reported _ _ _ _ H).
      - exact (check_memory_usage_reported _ _ _ _ H).
      - exact (check_disk_usage_reported _ _ _ _ H).
      - exact (check_swap_usage_reported _ _ _ _ H). }
    split; [exact R | exact (reported_not_unknown st R)].
  - intros checks H.
    destruct (run_checks_inv os checks H)
      as (c & m & d & s & -> & Hc & Hm & Hd & Hs).
    pose proof (check_cpu_usage_reported _ _ _ _ Hc).
    pose proof (check_memory_usage_reported _ _ _ _ Hm).
    pose proof (check_disk_usage_reported _ _ _ _ Hd).
    pose proof (check_swap_usage_reported _ _ _ _ Hs).
    repeat (constructor; [split; auto using reported_not_unknown |]).
    constructor.
  - intro Hq. split; [exact (checkers_return os warn crit Hq)|].
    destruct (checkers_return os None None Hq)
      as (c & m & d & s & Hc & Hm & Hd & Hs).
    exists [c; m; d; s]. apply run_checks_returns; assumption.
Qed.

(** ** The printed line *)

Lemma status_line_constant (sel : Selection) :
  status_line sel = Ok unfilled_line.
Proof.
  unfold status_line.
  rewrite (format_brace_free (line_kwargs sel) literal_4 eq_refl).
  reflexivity.
Qed.

Lemma choose_total (checks : list Status) : exists sel, choose checks = Ok sel.
Proof.
  rewrite choose_find.
  destruct (find (has_code CRITICAL) checks);
    [|destruct (find (has_code WARNING) checks)]; eexists; reflexivity.
Qed.

Lemma string_append_assoc (a b c : string) : (a ++ b) ++ c = a ++ b ++ c.
Proof.
  induction a as [|x a IH]; simpl; [reflexivity | rewrite IH; reflexivity].
Qed.

(** A run whose queries return and whose standard output takes the line
    appends the line and a line feed to standard output and returns. *)
Lemma main_prints (stdout : stream) (os : psutil) (out : string) :
  queries_return os ->
  takes_the_line stdout ->
  main str_num stdout os out = (out ++ unfilled_line ++ newline, Ok tt).
Proof.
  intros Hq [Hl Hn].
  destruct (checkers_return os None None Hq)
    as (c & m & d & s & Hc & Hm & Hd & Hs).
  unfold main, io_bind, lift.
  rewrite (run_checks_returns os c m d s Hc Hm Hd Hs).
  destruct (choose_total [c; m; d; s]) as [sel Hsel]. rewrite Hsel.
  rewrite status_line_constant. unfold print, io_bind, write.
  rewrite Hl, Hn, string_append_assoc. reflexivity.
Qed.

(** C9, amended. When all collaborator queries return and standard output
    takes the line and its line feed, the script writes one line to
    standard output, ended by its line feed and holding no other, and exits
    with status 0. *)
Theorem one_line_and_exit_zero :
  forall (stdout : stream) (os : psutil),
    queries_return os ->
    takes_the_line stdout ->
    exists line,
      script str_num stdout os = (line ++ newline, 0%Z) /\
      count_newlines line = 0%nat /\
      count_newlines (fst (script str_num stdout os)) = 1%nat.
Proof.
  intros stdout os Hq Ht. unfold script.
  rewrite (main_prints stdout os EmptyString Hq Ht).
  eexists. split; [reflexivity|]. split; reflexivity.
Qed.

(** C5, amended. The line printed is the same constant for every run whose
    queries return, whatever the colours and the text selected: [format] is
    applied to the last literal, which has no field, and the placeholders of
    the first three literals are printed as they stand. The constant is the
    four literals of the source, arrows included. Two runs therefore print
    the same line, on any standard output that takes it. *)
Theorem printed_line_is_constant :
  forall (stdout stdout' : stream) (os os' : psutil) (sel : Selection),
    queries_return os ->
    queries_return os' ->
    takes_the_line stdout ->
    takes_the_line stdout' ->
    status_line sel = Ok unfilled_line /\
    fst (script str_num stdout os) = unfilled_line ++ newline /\
    fst (script str_num stdout os) = fst (script str_num stdout' os').
Proof.
  intros stdout stdout' os os' sel Hq Hq' Ht Ht'.
  split; [apply status_line_constant|].
  unfold script. rewrite (main_prints stdout os EmptyString Hq Ht),
                         (main_prints stdout' os' EmptyString Hq' Ht').
  split; reflexivity.
Qed.

End Properties.

(** ** The statements on concrete machines *)

Lemma scalar_checkers_two_thresholds_witness :
  80 < 90 /\
  cpu_percent loaded 1 = Ok 85 /\
  virtual_memory loaded = Ok {| percent := 95 |} /\
  swap_memory loaded = Ok {| percent := 10 |} /\
  (exists st,
      check_cpu_usage str_percent loaded (Some 80) (Some 90) = Ok st /\
      text st = "CPU: " ++ str_percent 85 ++ "%" /\
      threshold_law 80 90 85 st) /\
  (exists st,
      check_memory_usage str_percent loaded (Some 80) (Some 90) = Ok st /\
      text st = "Memory: " ++ str_percent 95 ++ "%" /\
      threshold_law 80 90 95 st) /\
  (exists st,
      check_swap_usage str_percent loaded (Some 80) (Some 90) = Ok st /\
      text st = "Swap: " ++ str_percent 10 ++ "%" /\
      threshold_law 80 90 10 st).
Proof.
  split; [reflexivity|]. do 3 (split; [reflexivity|]).
  apply (scalar_checkers_two_thresholds str_percent loaded 80 90 85
           {| percent := 95 |} {| percent := 10 |}); reflexivity.
Defined.

Lemma disk_checker_first_of_each_bucket_witness :
  disks_datas loaded = Ok [("A", 95); ("B", 50)] /\
  check_disk_usage str_percent loaded (Some 70) (Some 90)
  = Ok (mkStatus CRITICAL "Disk A: 95.0%").
Proof.
  split; [reflexivity|].
  apply (disk_checker_first_of_each_bucket str_percent loaded 70 90
           [("A", 95); ("B", 50)] eq_refl).
Defined.

Lemma no_partitions_disks_ok_witness :
  disk_partitions idle = Ok [] /\
  check_disk_usage str_percent idle None None = Ok (mkStatus OK "Disks OK").
Proof.
  split; [reflexivity|].
  apply (no_partitions_disks_ok str_percent idle None None eq_refl).
Defined.

Lemma aggregator_first_of_highest_severity_witness :
  check_cpu_usage str_percent loaded None None
    = Ok (mkStatus WARNING "CPU: 85.0%") /\
  check_memory_usage str_percent loaded None None
    = Ok (mkStatus CRITICAL "Memory: 95.0%") /\
  check_disk_usage str_percent loaded None None
    = Ok (mkStatus CRITICAL "Disk A: 95.0%") /\
  check_swap_usage str_percent loaded None None
    = Ok (mkStatus OK "Swap: 10.0%") /\
  run_checks str_percent loaded
    = Ok [mkStatus WARNING "CPU: 85.0%"; mkStatus CRITICAL "Memory: 95.0%";
          mkStatus CRITICAL "Disk A: 95.0%"; mkStatus OK "Swap: 10.0%"] /\
  choose [mkStatus WARNING "CPU: 85.0%"; mkStatus CRITICAL "Memory: 95.0%";
          mkStatus CRITICAL "Disk A: 95.0%"; mkStatus OK "Swap: 10.0%"]
    = Ok {| bg_color := 196; fg_color := 255;
            line_text := "Memory: 95.0%" |}.
Proof.
  do 4 (split; [reflexivity|]).
  destruct (aggregator_first_of_highest_severity str_percent loaded
              (mkStatus WARNING "CPU: 85.0%")
              (mkStatus CRITICAL "Memory: 95.0%")
              (mkStatus CRITICAL "Disk A: 95.0%")
              (mkStatus OK "Swap: 10.0%")
              eq_refl eq_refl eq_refl eq_refl) as [Hrun [Hcrit _]].
  split; [exact Hrun|].
  destruct Hcrit as [e [Hfind [_ Hchoose]]].
  - exists (mkStatus CRITICAL "Memory: 95.0%").
    split; [right; left; reflexivity | reflexivity].
  - injection Hfind as <-. exact Hchoose.
Defined.

Lemma checkers_never_report_unknown_witness :
  check_disk_usage str_percent loaded None None
    = Ok (mkStatus CRITICAL "Disk A: 95.0%") /\
  reported (mkStatus CRITICAL "Disk A: 95.0%") /\
  code (mkStatus CRITICAL "Disk A: 95.0%") <> UNKNOWN.
Proof.
  split; [reflexivity|].
  apply (proj1 (checkers_never_report_unknown str_percent loaded None None)).
  right. right. left. reflexivity.
Defined.

Lemma one_line_and_exit_zero_witness :
  queries_return loaded /\
  takes_the_line utf8_stdout /\
  exists line,
    script str_percent utf8_stdout loaded = (line ++ newline, 0%Z) /\
    count_newlines line = 0%nat /\
    count_newlines (fst (script str_percent utf8_stdout loaded)) = 1%nat.
Proof.
  assert (H : queries_return loaded)
    by (repeat split; eexists; reflexivity).
  assert (T : takes_the_line utf8_stdout) by (split; reflexivity).
  split; [exact H|]. split; [exact T|].
  exact (one_line_and_exit_zero str_percent utf8_stdout loaded H T).
Defined.

Lemma printed_line_is_constant_witness :
  queries_return idle /\
  queries_return loaded /\
  takes_the_line utf8_stdout /\
  fst (script str_percent utf8_stdout idle)
  = fst (script str_percent utf8_stdout loaded).
Proof.
  assert (H : queries_return idle)
    by (repeat split; eexists; reflexivity).
  assert (H' : queries_return loaded)
    by (repeat split; eexists; reflexivity).
  assert (T : takes_the_line utf8_stdout) by (split; reflexivity).
  split; [exact H|]. split; [exact H'|]. split; [exact T|].
  apply (printed_line_is_constant str_percent utf8_stdout utf8_stdout
           idle loaded
           {| bg_color := 190; fg_color := 17; line_text := "OK" |}
           H H' T T).
Defined.

Lemma partitions_at_crit_disks_ok_witness :
  70 < 90 /\
  disks_datas partition_at_crit = Ok [("A", 10); ("B", 90)] /\
  Forall (fun d : string * Q => snd d <= 70 \/ snd d == 90)
         [("A", 10); ("B", 90)] /\
  Exists (fun d : string * Q => snd d == 90) [("A", 10); ("B", 90)] /\
  check_disk_usage str_percent partition_at_crit (Some 70) (Some 90)
    = Ok (mkStatus OK "Disks OK").
Proof.
  assert (Hall : Forall (fun d : string * Q => snd d <= 70 \/ snd d == 90)
                        [("A", 10); ("B", 90)]).
  { constructor; [left; discriminate|].
    constructor; [right; reflexivity | constructor]. }
  assert (Hex : Exists (fun d : string * Q => snd d == 90)
                       [("A", 10); ("B", 90)]).
  { right. left. reflexivity. }
  split; [reflexivity|]. split; [reflexivity|].
  split; [exact Hall|]. split; [exact Hex|].
  apply (partitions_at_crit_disks_ok str_percent partition_at_crit 70 90
           [("A", 10); ("B", 90)] eq_refl eq_refl Hall Hex).
Defined.

(** C1. The documented line is not what the code prints. On an idle
    machine whose standard output takes every character, the run selects 17
    on 190 with the text [OK], returns with status 0, and has printed the
    four literals with their placeholders as they stand, not the documented
    template filled with the selection. A loaded machine, which selects 255
    on 196 with the text of the memory check, prints the very same line. *)
Theorem documented_line_not_printed :
  selection str_percent idle
    = Ok {| bg_color := 190; fg_color := 17; line_text := "OK" |} /\
  script str_percent utf8_stdout idle = (unfilled_line ++ newline, 0%Z) /\
  fst (script str_percent utf8_stdout idle)
    <> documented_line 17 190 "OK" ++ newline /\
  selection str_percent loaded
    = Ok {| bg_color := 196; fg_color := 255;
            line_text := "Memory: 95.0%" |} /\
  script str_percent utf8_stdout loaded = (unfilled_line ++ newline, 0%Z) /\
  fst (script str_percent utf8_stdout loaded)
    <> documented_line 255 196 "Memory: 95.0%" ++ newline.
Proof.
  split; [reflexivity|]. split; [reflexivity|].
  split; [intro H; apply String.eqb_eq in H; vm_compute in H;
          discriminate H|].
  split; [reflexivity|]. split; [reflexivity|].
  intro H. apply String.eqb_eq in H. vm_compute in H. discriminate H.
Qed.

(** C5 as worded fails: the line printed on an idle machine has the arrow
    U+E0B2 before its second and its fourth directive, which the quoted
    constant has not. *)
Lemma arrows_are_printed :
  status_line {| bg_color := 190; fg_color := 17; line_text := "OK" |}
    <> Ok unfilled_line_without_arrows /\
  fst (script str_percent utf8_stdout idle)
    <> unfilled_line_without_arrows ++ newline /\
  fst (script str_percent utf8_stdout idle) = unfilled_line ++ newline.
Proof.
  split; [|split].
  - rewrite status_line_constant. intro H.
    assert (E : unfilled_line = unfilled_line_without_arrows) by congruence.
    apply String.eqb_eq in E. vm_compute in E. discriminate E.
  - intro H. apply String.eqb_eq in H. vm_compute in H. discriminate H.
  - reflexivity.
Qed.

(** C9 as worded fails: on an idle machine every query returns, but a
    standard output in ASCII has not the arrow of the line; [print] raises,
    nothing is written and the exit status is 1. *)
Lemma ascii_stdout_refuses_the_line :
  queries_return idle /\
  fault ascii_stdout unfilled_line = Some UnicodeEncodeError /\
  main str_percent ascii_stdout idle EmptyString
    = (EmptyString, Raise UnicodeEncodeError) /\
  script str_percent ascii_stdout idle = (EmptyString, 1%Z).
Proof.
  split; [repeat split; eexists; reflexivity|].
  split; [reflexivity|]. split; reflexivity.
Qed.

(** C10 as worded fails: with thresholds 70 and 90, partition [B] is exactly
    at 90 and none is above it, but partition [A] at 75 is a warning and the
    checker reports it. *)
Lemma partition_at_crit_beside_warning :
  70 < 90 /\
  disks_datas warning_beside_crit = Ok [("A", 75); ("B", 90)] /\
  Forall (fun d : string * Q => snd d <= 90) [("A", 75); ("B", 90)] /\
  Exists (fun d : string * Q => snd d == 90) [("A", 75); ("B", 90)] /\
  check_disk_usage str_percent warning_beside_crit (Some 70) (Some 90)
    = Ok (mkStatus WARNING "Disk A: 75.0%") /\
  check_disk_usage str_percent warning_beside_crit (Some 70) (Some 90)
    <> Ok (mkStatus OK "Disks OK").
Proof.
  split; [reflexivity|]. split; [reflexivity|].
  split; [repeat constructor; discriminate|].
  split; [right; left; reflexivity|].
  split; [reflexivity | discriminate].
Qed.

(** A query that raises ends the script before anything is printed. *)
Lemma failing_query_prints_nothing (stdout : stream) :
  script str_percent stdout (machine_no_disks 0 0 0) = (EmptyString, 1%Z).
Proof. reflexivity. Qed.

(** * Further properties of the code *)

Section Further.

Variable str_num : Q -> string.

(** ** Rendering a status (lines 41-56) *)

Lemma append_empty (s : string) : s ++ EmptyString = s.
Proof.
  induction s as [|c s IH]; simpl; [reflexivity | rewrite IH; reflexivity].
Qed.

Lemma Status_str_returns (st : Status) :
  Status_str st = Ok (StatusCode_str (code st) ++ ": " ++ text st).
Proof.
  transitivity
    (Ok (A := string)
        (StatusCode_str (code st) ++ ": " ++ text st ++ EmptyString)).
  - destruct st as [c t]. destruct c; reflexivity.
  - rewrite append_empty. reflexivity.
Qed.

(** X1. [str] of a status never raises, whatever its text holds (braces
    included): it is the name of the code, a colon, a space and the text.
    Two statuses with the same rendering are the same status. *)
Theorem Status_str_injective :
  forall st st' : Status,
    Status_str st = Ok (StatusCode_str (code st) ++ ": " ++ text st) /\
    (Status_str st = Status_str st' -> st = st').
Proof.
  intros st st'. split; [apply Status_str_returns|].
  rewrite !Status_str_returns. intro H. injection H as H.
  destruct st as [c t], st' as [c' t'].
  destruct c, c'; simpl in H; try discriminate H;
    injection H as ->; reflexivity.
Qed.

(** ** The partitions and their usage (lines 77-81) *)

Lemma comprehension_Forall2 {A B : Type} (f : A -> result B)
      (l : list A) (bs : list B) :
  comprehension f l = Ok bs <-> Forall2 (fun a b => f a = Ok b) l bs.
Proof.
  revert bs. induction l as [|a l IH]; intro bs; simpl.
  - split; intro H.
    + injection H as <-. constructor.
    + inversion H. reflexivity.
  - split; intro H.
    + destruct (f a) as [b|e] eqn:Ea; [|discriminate H]. cbn [bind] in H.
      destruct (comprehension f l) as [bs'|e] eqn:El; [|discriminate H].
      cbn [bind] in H. injection H as <-.
      constructor; [exact Ea | apply IH; reflexivity].
    + inversion H as [|a' b l' bs' Ha Hl]; subst.
      rewrite Ha. cbn [bind].
      rewrite (proj2 (IH bs') Hl). reflexivity.
Qed.

Lemma comprehension_raises {A B : Type} (f : A -> result B)
      (l1 l2 : list A) (a : A) (e : exn) :
  Forall (fun x => exists b, f x = Ok b) l1 ->
  f a = Raise e ->
  comprehension f (l1 ++ a :: l2)%list = Raise e.
Proof.
  intros H Ha. induction H as [|x l [b Hx] _ IH]; simpl.
  - rewrite Ha. reflexivity.
  - rewrite Hx, IH. reflexivity.
Qed.

(** X2. When the disk queries return, there is one entry per partition, in
    the order of the enumeration, each made of the partition's mount point
    and of the usage the collaborator gave for that mount point. *)
Theorem disks_datas_one_entry_per_partition :
  forall (os : psutil) (datas : list (string * Q)),
    disks_datas os = Ok datas ->
    exists disks,
      disk_partitions os = Ok disks /\
      map fst datas = map mountpoint disks /\
      List.length datas = List.length disks /\
      Forall (fun x => exists u,
                  disk_usage os (fst x) = Ok u /\ percent u = snd x) datas.
Proof.
  intros os datas H. unfold disks_datas in H.
  destruct (disk_partitions os) as [disks|e]; [|discriminate H].
  cbn [bind] in H. apply comprehension_Forall2 in H.
  exists disks. split; [reflexivity|].
  induction H as [|d x disks datas Hd _ IH]; simpl.
  - repeat split. constructor.
  - destruct (disk_usage os (mountpoint d)) as [u|e] eqn:Eu;
      [|discriminate Hd].
    cbn [bind] in Hd. injection Hd as <-.
    destruct IH as [Hm [Hl Hf]]. simpl. repeat split.
    + f_equal. exact Hm.
    + f_equal. exact Hl.
    + constructor; [|exact Hf]. exists u. split; [exact Eu | reflexivity].
Qed.

(** X3. The usage of every partition is asked before any is classified: if
    the usage query raises for one partition, the disk checker raises that
    exception whatever the thresholds and whatever the other partitions,
    the ones before it included; and so it does when the enumeration itself
    raises. *)
Theorem check_disk_usage_raises :
  forall (os : psutil) (warn crit : option Q) (e : exn),
    (disk_partitions os = Raise e \/
     exists before bad after,
       disk_partitions os = Ok (before ++ bad :: after)%list /\
       Forall (fun d => exists u, disk_usage os (mountpoint d) = Ok u)
              before /\
       disk_usage os (mountpoint bad) = Raise e) ->
    disks_datas os = Raise e /\
    check_disk_usage str_num os warn crit = Raise e.
Proof.
  intros os warn crit e H.
  assert (Hd : disks_datas os = Raise e).
  { unfold disks_datas.
    destruct H as [H | (before & bad & after & Hp & Hb & Hbad)].
    - rewrite H. reflexivity.
    - rewrite Hp. cbn [bind]. apply comprehension_raises.
      + eapply Forall_impl; [|exact Hb]. simpl.
        intros d [u Hu]. rewrite Hu. eexists. reflexivity.
      + rewrite Hbad. reflexivity. }
  split; [exact Hd|]. unfold check_disk_usage. rewrite Hd. reflexivity.
Qed.

(** ** Exceptions of a run *)

Lemma check_cpu_usage_raises (os : psutil) (warn crit : option Q) (e : exn) :
  cpu_percent os 1 = Raise e -> check_cpu_usage str_num os warn crit = Raise e.
Proof. intro H. unfold check_cpu_usage. rewrite H. reflexivity. Qed.

Lemma check_memory_usage_raises
      (os : psutil) (warn crit : option Q) (e : exn) :
  virtual_memory os = Raise e ->
  check_memory_usage str_num os warn crit = Raise e.
Proof. intro H. unfold check_memory_usage. rewrite H. reflexivity. Qed.

Lemma check_swap_usage_raises (os : psutil) (warn crit : option Q) (e : exn) :
  swap_memory os = Raise e -> check_swap_usage str_num os warn crit = Raise e.
Proof. intro H. unfold check_swap_usage. rewrite H. reflexivity. Qed.

Lemma check_disk_usage_raises_datas
      (os : psutil) (warn crit : option Q) (e : exn) :
  disks_datas os = Raise e -> check_disk_usage str_num os warn crit = Raise e.
Proof. intro H. unfold check_disk_usage. rewrite H. reflexivity. Qed.






(** ** Thresholds in any order *)

Lemma three_way_code (warn crit u : Q) (t : string) :
  code (three_way warn crit u t)
  = if num_gt u crit then CRITICAL
    else if num_gt u warn then WARNING else OK.
Proof.
  unfold three_way.
  destruct (num_gt u crit); [|destruct (num_gt u warn)]; reflexivity.
Qed.

Lemma three_way_no_warning (warn crit u : Q) (t : string) :
  crit <= warn -> code (three_way warn crit u t) <> WARNING.
Proof.
  intro H. rewrite three_way_code.
  destruct (num_gt u crit) eqn:Hc; [discriminate|].
  destruct (num_gt u warn) eqn:Hw; [|discriminate].
  apply num_gt_false in Hc. apply num_gt_true in Hw. lra.
Qed.

Lemma three_way_monotone (warn crit u u' : Q) (t t' : string) :
  u <= u' ->
  (StatusCode_value (code (three_way warn crit u t))
   <= StatusCode_value (code (three_way warn crit u' t')))%Z.
Proof.
  intro H. rewrite !three_way_code.
  destruct (num_gt u crit) eqn:Hc;
    [apply num_gt_true in Hc | apply num_gt_false in Hc];
    (destruct (num_gt u' crit) eqn:Hc';
     [apply num_gt_true in Hc' | apply num_gt_false in Hc']);
    (destruct (num_gt u warn) eqn:Hw;
     [apply num_gt_true in Hw | apply num_gt_false in Hw]);
    (destruct (num_gt u' warn) eqn:Hw';
     [apply num_gt_true in Hw' | apply num_gt_false in Hw']);
    simpl; try (intro X; discriminate X); lra.
Qed.

(** X5. When the critical threshold is not above the warning threshold, no
    checker returns WARNING: a status returned by any of the four is
    CRITICAL or OK. *)
Theorem no_warning_when_crit_not_above_warn :
  forall (os : psutil) (warn crit : Q) (st : Status),
    crit <= warn ->
    In (Ok st) [check_cpu_usage str_num os (Some warn) (Some crit);
                check_memory_usage str_num os (Some warn) (Some crit);
                check_disk_usage str_num os (Some warn) (Some crit);
                check_swap_usage str_num os (Some warn) (Some crit)] ->
    code st = CRITICAL \/ code st = OK.
Proof.
  intros os warn crit st Hcw Hin.
  assert (Hnw : code st <> WARNING).
  { simpl in Hin. destruct Hin as [H|[H|[H|[H|[]]]]].
    - destruct (cpu_percent os 1) as [u|e] eqn:E.
      + rewrite (check_cpu_usage_returns str_num _ _ _ _ E) in H.
        injection H as <-. apply three_way_no_warning, Hcw.
      + rewrite (check_cpu_usage_raises _ _ _ _ E) in H. discriminate H.
    - destruct (virtual_memory os) as [u|e] eqn:E.
      + rewrite (check_memory_usage_returns str_num _ _ _ _ E) in H.
        injection H as <-. apply three_way_no_warning, Hcw.
      + rewrite (check_memory_usage_raises _ _ _ _ E) in H. discriminate H.
    - destruct (disks_datas os) as [datas|e] eqn:E.
      + rewrite (check_disk_usage_returns str_num _ _ _ _ E) in H.
        cbn [arg_or] in H.
        rewrite (disks_warnings_nil warn crit datas) in H.
        * destruct (disks_criticals crit datas) as [|[mc uc] lc];
            injection H as <-; discriminate.
        * apply Forall_forall. intros d _.
          destruct (Qlt_le_dec warn (snd d)); [right; lra | left; assumption].
      + rewrite (check_disk_usage_raises_datas _ _ _ _ E) in H.
        discriminate H.
    - destruct (swap_memory os) as [u|e] eqn:E.
      + rewrite (check_swap_usage_returns str_num _ _ _ _ E) in H.
        injection H as <-. apply three_way_no_warning, Hcw.
      + rewrite (check_swap_usage_raises _ _ _ _ E) in H. discriminate H. }
  assert (R : reported st).
  { simpl in Hin. destruct Hin as [H|[H|[H|[H|[]]]]].
    - exact (check_cpu_usage_reported _ _ _ _ _ H).
    - exact (check_memory_usage_reported _ _ _ _ _ H).
    - exact (check_disk_usage_reported _ _ _ _ _ H).
    - exact (check_swap_usage_reported _ _ _ _ _ H). }
  destruct R as [R|[R|R]]; [right; exact R | contradiction | left; exact R].
Qed.

(** X6. The scalar checkers are monotone, whatever the thresholds: of two
    readings, the higher never gets the code of lower value. *)
Theorem scalar_checkers_monotone :
  forall (os os' : psutil) (warn crit u u' : Q) (m m' s s' : usage_info),
    cpu_percent os 1 = Ok u -> cpu_percent os' 1 = Ok u' ->
    virtual_memory os = Ok m -> virtual_memory os' = Ok m' ->
    swap_memory os = Ok s -> swap_memory os' = Ok s' ->
    (u <= u' ->
     exists st st',
       check_cpu_usage str_num os (Some warn) (Some crit) = Ok st /\
       check_cpu_usage str_num os' (Some warn) (Some crit) = Ok st' /\
       (StatusCode_value (code st) <= StatusCode_value (code st'))%Z) /\
    (percent m <= percent m' ->
     exists st st',
       check_memory_usage str_num os (Some warn) (Some crit) = Ok st /\
       check_memory_usage str_num os' (Some warn) (Some crit) = Ok st' /\
       (StatusCode_value (code st) <= StatusCode_value (code st'))%Z) /\
    (percent s <= percent s' ->
     exists st st',
       check_swap_usage str_num os (Some warn) (Some crit) = Ok st /\
       check_swap_usage str_num os' (Some warn) (Some crit) = Ok st' /\
       (StatusCode_value (code st) <= StatusCode_value (code st'))%Z).
Proof.
  intros os os' warn crit u u' m m' s s' Hu Hu' Hm Hm' Hs Hs'.
  split; [|split]; intro Hle; do 2 eexists.
  - split; [apply (check_cpu_usage_returns str_num _ _ _ _ Hu)|].
    split; [apply (check_cpu_usage_returns str_num _ _ _ _ Hu')|].
    apply three_way_monotone, Hle.
  - split; [apply (check_memory_usage_returns str_num _ _ _ _ Hm)|].
    split; [apply (check_memory_usage_returns str_num _ _ _ _ Hm')|].
    apply three_way_monotone, Hle.
  - split; [apply (check_swap_usage_returns str_num _ _ _ _ Hs)|].
    split; [apply (check_swap_usage_returns str_num _ _ _ _ Hs')|].
    apply three_way_monotone, Hle.
Qed.

(** ** The severity of the disk check *)

Lemma filter_nil_existsb {A : Type} (p : A -> bool) (l : list A) :
  filter p l = [] <-> existsb p l = false.
Proof.
  induction l as [|a l IH]; simpl.
  - tauto.
  - destruct (p a); simpl; [split; discriminate | exact IH].
Qed.

Lemma existsb_Permutation {A : Type} (p : A -> bool) (l l' : list A) :
  Permutation l l' -> existsb p l = existsb p l'.
Proof.
  intro H. induction H as [|x l l' _ IH|x y l|l l' l'' _ IH1 _ IH2]; simpl.
  - reflexivity.
  - rewrite IH. reflexivity.
  - destruct (p x), (p y); reflexivity.
  - congruence.
Qed.

Lemma existsb_above (crit : Q) (datas : list (string * Q)) :
  existsb (fun d => num_gt (snd d) crit) datas = true
  <-> Exists (fun d => crit < snd d) datas.
Proof.
  rewrite existsb_exists, Exists_exists.
  split; intros [d [Hin Hd]]; exists d; (split; [exact Hin|]);
    apply num_gt_true; exact Hd.
Qed.

Lemma existsb_between (warn crit : Q) (datas : list (string * Q)) :
  existsb (fun d => num_gt (snd d) warn && num_lt (snd d) crit) datas = true
  <-> Exists (fun d => warn < snd d /\ snd d < crit) datas.
Proof.
  rewrite existsb_exists, Exists_exists.
  split; intros [d [Hin Hd]]; exists d; (split; [exact Hin|]).
  - apply andb_true_iff in Hd. destruct Hd as [H1 H2].
    split; [apply num_gt_true, H1 | apply num_lt_true, H2].
  - apply andb_true_iff.
    split; [apply num_gt_true, Hd | apply num_lt_true, Hd].
Qed.

(** The code of the disk check as a function of the usages alone. *)
Lemma check_disk_usage_code
      (os : psutil) (warn crit : Q) (datas : list (string * Q)) :
  disks_datas os = Ok datas ->
  exists st,
    check_disk_usage str_num os (Some warn) (Some crit) = Ok st /\
    code st =
    if existsb (fun d => num_gt (snd d) crit) datas then CRITICAL
    else if existsb (fun d => num_gt (snd d) warn && num_lt (snd d) crit)
                    datas
         then WARNING else OK.
Proof.
  intro H. rewrite (check_disk_usage_returns str_num _ _ _ _ H).
  cbn [arg_or]. unfold disks_criticals, disks_warnings.
  set (pc := fun d : string * Q => num_gt (snd d) crit).
  set (pw := fun d : string * Q =>
               num_gt (snd d) warn && num_lt (snd d) crit).
  pose proof (filter_nil_existsb pc datas) as Fc.
  pose proof (filter_nil_existsb pw datas) as Fw.
  destruct (filter pc datas) as [|[mc uc] lc].
  - rewrite (proj1 Fc eq_refl).
    destruct (filter pw datas) as [|[mw uw] lw].
    + rewrite (proj1 Fw eq_refl). eexists. split; reflexivity.
    + destruct (existsb pw datas).
      * eexists. split; reflexivity.
      * discriminate (proj2 Fw eq_refl).
  - destruct (existsb pc datas).
    + eexists. split; reflexivity.
    + discriminate (proj2 Fc eq_refl).
Qed.

(** X7. The code of the disk check depends on the usages as follows, for all
    thresholds: CRITICAL iff some partition is above [crit]; WARNING iff
    none is above [crit] and some partition is strictly between [warn] and
    [crit]; OK iff every partition is at most at [crit] and none is strictly
    between the thresholds. *)
Theorem disk_code_by_usages :
  forall (os : psutil) (warn crit : Q) (datas : list (string * Q)),
    disks_datas os = Ok datas ->
    exists st,
      check_disk_usage str_num os (Some warn) (Some crit) = Ok st /\
      (code st = CRITICAL <-> Exists (fun d => crit < snd d) datas) /\
      (code st = WARNING <->
       ~ Exists (fun d => crit < snd d) datas /\
       Exists (fun d => warn < snd d /\ snd d < crit) datas) /\
      (code st = OK <->
       Forall (fun d => snd d <= crit /\ ~ (warn < snd d /\ snd d < crit))
              datas).
Proof.
  intros os warn crit datas H.
  destruct (check_disk_usage_code os warn crit datas H) as [st [Hst Hc]].
  exists st. split; [exact Hst|]. rewrite Hc. clear Hst Hc H.
  pose proof (existsb_above crit datas) as Cr.
  pose proof (existsb_between warn crit datas) as Wr.
  assert (Fr : Forall (fun d : string * Q =>
                         snd d <= crit /\ ~ (warn < snd d /\ snd d < crit))
                      datas
               <-> ~ Exists (fun d => crit < snd d) datas /\
                   ~ Exists (fun d => warn < snd d /\ snd d < crit) datas).
  { rewrite Forall_forall, !Exists_exists. split.
    - intro F. split; intros [d [Hin Hd]]; destruct (F d Hin) as [F1 F2].
      + lra.
      + exact (F2 Hd).
    - intros [N1 N2] d Hin. split.
      + destruct (Qlt_le_dec crit (snd d)) as [L|L]; [|exact L].
        exfalso. apply N1. exists d. split; assumption.
      + intro Hd. apply N2. exists d. split; assumption. }
  destruct (existsb (fun d : string * Q => num_gt (snd d) crit) datas).
  - pose proof (proj1 Cr eq_refl) as E.
    split; [tauto|]. split; [split; [discriminate | tauto]|].
    split; [discriminate | rewrite Fr; tauto].
  - assert (NE : ~ Exists (fun d => crit < snd d) datas).
    { intro E. apply Cr in E. discriminate E. }
    destruct (existsb (fun d : string * Q =>
                         num_gt (snd d) warn && num_lt (snd d) crit) datas).
    + pose proof (proj1 Wr eq_refl) as E.
      split; [split; [discriminate | tauto]|].
      split; [tauto|]. split; [discriminate | rewrite Fr; tauto].
    + assert (NW : ~ Exists (fun d => warn < snd d /\ snd d < crit) datas).
      { intro E. apply Wr in E. discriminate E. }
      split; [split; [discriminate | tauto]|].
      split; [split; [discriminate | tauto]|].
      split; [rewrite Fr; tauto | reflexivity].
Qed.

(** X8. The code of the disk check does not depend on the order in which
    the partitions are enumerated (the text does: it names the first
    partition of the bucket). *)
Theorem disk_code_any_order :
  forall (os os' : psutil) (warn crit : Q) (datas datas' : list (string * Q)),
    disks_datas os = Ok datas ->
    disks_datas os' = Ok datas' ->
    Permutation datas datas' ->
    exists st st',
      check_disk_usage str_num os (Some warn) (Some crit) = Ok st /\
      check_disk_usage str_num os' (Some warn) (Some crit) = Ok st' /\
      code st = code st'.
Proof.
  intros os os' warn crit datas datas' H H' P.
  destruct (check_disk_usage_code os warn crit datas H) as [st [Hst Hc]].
  destruct (check_disk_usage_code os' warn crit datas' H') as [st' [Hst' Hc']].
  exists st, st'. split; [exact Hst|]. split; [exact Hst'|].
  rewrite Hc, Hc'.
  rewrite (existsb_Permutation _ datas datas' P).
  rewrite (existsb_Permutation
             (fun d : string * Q => num_gt (snd d) warn && num_lt (snd d) crit)
             datas datas' P).
  reflexivity.
Qed.

(** X9. Further partitions never lower the code of the disk check: with the
    same thresholds, the code for an enumeration continued by more
    partitions has at least the value of the code for the enumeration
    alone. *)
Theorem more_partitions_never_lower_the_code :
  forall (os os' : psutil) (warn crit : Q)
         (datas more : list (string * Q)),
    disks_datas os = Ok datas ->
    disks_datas os' = Ok (datas ++ more)%list ->
    exists st st',
      check_disk_usage str_num os (Some warn) (Some crit) = Ok st /\
      check_disk_usage str_num os' (Some warn) (Some crit) = Ok st' /\
      (StatusCode_value (code st) <= StatusCode_value (code st'))%Z.
Proof.
  intros os os' warn crit datas more H H'.
  destruct (check_disk_usage_code os warn crit datas H) as [st [Hst Hc]].
  destruct (check_disk_usage_code os' warn crit _ H') as [st' [Hst' Hc']].
  exists st, st'. split; [exact Hst|]. split; [exact Hst'|].
  rewrite Hc, Hc', !existsb_app.
  destruct (existsb _ datas), (existsb _ datas),
           (existsb _ more), (existsb _ more);
    simpl; intro X; discriminate X.
Qed.

(** ** The aggregator on any list of statuses *)

Lemma highest_value_existsb (checks : list Status) :
  highest_value checks =
  (if existsb (has_code CRITICAL) checks then 2
   else if existsb (has_code WARNING) checks then 1 else 0)%Z.
Proof.
  induction checks as [|e l IH]; simpl.
  - reflexivity.
  - rewrite IH. clear IH. destruct e as [c t].
    set (ec := existsb (has_code CRITICAL) l).
    set (ew := existsb (has_code WARNING) l).
    unfold has_code. simpl. destruct c, ec, ew; reflexivity.
Qed.

Lemma find_filter {A : Type} (p q : A -> bool) (l : list A) :
  (forall a, p a = true -> q a = true) ->
  find p (filter q l) = find p l.
Proof.
  intro H. induction l as [|a l IH]; simpl.
  - reflexivity.
  - destruct (q a) eqn:Eq; simpl.
    + destruct (p a); [reflexivity | exact IH].
    + destruct (p a) eqn:Ep; [|exact IH].
      rewrite (H a Ep) in Eq. discriminate Eq.
Qed.

(** The colours selected are those of the highest code value. *)
Lemma choose_colours (checks : list Status) :
  exists sel,
    choose checks = Ok sel /\
    (bg_color sel, fg_color sel) = colours_of_value (highest_value checks).
Proof.
  rewrite choose_find, highest_value_existsb, !existsb_find.
  destruct (find (has_code CRITICAL) checks);
    [|destruct (find (has_code WARNING) checks)];
    eexists; split; reflexivity.
Qed.

(** X10. For every list of statuses, the empty one included, the aggregator
    returns a selection; its colours are those of the highest value among
    the codes (CRITICAL 2, WARNING 1, OK 0, UNKNOWN -1, and 0 at least);
    its text is [OK] when that value is 0 and otherwise the text of a status
    of the list whose code has that value. *)
Theorem aggregator_follows_highest_value :
  forall checks : list Status,
    exists sel,
      choose checks = Ok sel /\
      (bg_color sel, fg_color sel) = colours_of_value (highest_value checks) /\
      (highest_value checks = 0%Z -> line_text sel = "OK") /\
      (highest_value checks <> 0%Z ->
       exists e, In e checks /\
                 StatusCode_value (code e) = highest_value checks /\
                 line_text sel = text e).
Proof.
  intro checks.
  rewrite choose_find, highest_value_existsb, !existsb_find.
  destruct (find (has_code CRITICAL) checks) as [e|] eqn:Ec.
  - eexists. split; [reflexivity|]. split; [reflexivity|].
    split; [discriminate|]. intros _.
    apply find_some in Ec. destruct Ec as [Hin Hc].
    apply has_code_true in Hc.
    exists e. rewrite Hc. repeat split. exact Hin.
  - destruct (find (has_code WARNING) checks) as [e|] eqn:Ew.
    + eexists. split; [reflexivity|]. split; [reflexivity|].
      split; [discriminate|]. intros _.
      apply find_some in Ew. destruct Ew as [Hin Hc].
      apply has_code_true in Hc.
      exists e. rewrite Hc. repeat split. exact Hin.
    + eexists. split; [reflexivity|]. split; [reflexivity|].
      split; [reflexivity|]. intro H. destruct (H eq_refl).
Qed.

(** X11. Statuses whose code is OK or UNKNOWN have no influence on the
    selection: the aggregator selects the same colours and text when they
    are left out of the list. *)
Theorem aggregator_ignores_ok_and_unknown :
  forall checks : list Status,
    choose (filter (fun e => has_code WARNING e || has_code CRITICAL e) checks)
    = choose checks.
Proof.
  intro checks. rewrite !choose_find.
  rewrite !find_filter.
  - reflexivity.
  - intros a H. rewrite H. reflexivity.
  - intros a H. rewrite H. apply orb_true_r.
Qed.

(** X12. The colours selected do not depend on the order of the statuses
    (the text may: it is the text of the first status of the highest
    severity). *)
Theorem aggregator_colours_any_order :
  forall checks checks' : list Status,
    Permutation checks checks' ->
    exists sel sel',
      choose checks = Ok sel /\
      choose checks' = Ok sel' /\
      bg_color sel = bg_color sel' /\
      fg_color sel = fg_color sel'.
Proof.
  intros checks checks' P.
  destruct (choose_colours checks) as [sel [H C]].
  destruct (choose_colours checks') as [sel' [H' C']].
  exists sel, sel'. split; [exact H|]. split; [exact H'|].
  assert (E : highest_value checks = highest_value checks').
  { rewrite !highest_value_existsb.
    rewrite (existsb_Permutation (has_code CRITICAL) _ _ P).
    rewrite (existsb_Permutation (has_code WARNING) _ _ P). reflexivity. }
  rewrite E in C. rewrite <- C' in C. injection C as -> ->. split; reflexivity.
Qed.

(** ** From the readings to the selection, with the default thresholds *)

Lemma choose_critical_colours (checks : list Status) (sel : Selection) :
  choose checks = Ok sel ->
  ((bg_color sel, fg_color sel) = (196, 255)%Z
   <-> existsb (has_code CRITICAL) checks = true).
Proof.
  rewrite choose_find, existsb_find.
  destruct (find (has_code CRITICAL) checks);
    [|destruct (find (has_code WARNING) checks)];
    intro H; injection H as <-; simpl; split; intro X;
    try reflexivity; discriminate X.
Qed.

Lemma choose_ok (checks : list Status) :
  choose checks = Ok {| bg_color := 190; fg_color := 17; line_text := "OK" |}
  <-> existsb (has_code CRITICAL) checks = false /\
      existsb (has_code WARNING) checks = false.
Proof.
  rewrite choose_find, !existsb_find.
  destruct (find (has_code CRITICAL) checks);
    [|destruct (find (has_code WARNING) checks)].
  - split; [discriminate | intros [X _]; discriminate X].
  - split; [discriminate | intros [_ X]; discriminate X].
  - split; [split; reflexivity | reflexivity].
Qed.

Lemma has_code_false (c : StatusCode) (e : Status) :
  has_code c e = false <-> code e <> c.
Proof.
  split.
  - intros H E. apply has_code_true in E. congruence.
  - intro H. destruct (has_code c e) eqn:E; [|reflexivity].
    apply has_code_true in E. contradiction.
Qed.

(** The four statuses of a run whose queries return, with their codes. *)
Lemma run_checks_codes (os : psutil) (u : Q) (m s : usage_info)
      (datas : list (string * Q)) :
  cpu_percent os 1 = Ok u ->
  virtual_memory os = Ok m ->
  swap_memory os = Ok s ->
  disks_datas os = Ok datas ->
  exists c cm d cs,
    run_checks str_num os = Ok [c; cm; d; cs] /\
    c = three_way 80 90 u ("CPU: " ++ str_num u ++ "%") /\
    cm = three_way 80 90 (percent m)
           ("Memory: " ++ str_num (percent m) ++ "%") /\
    cs = three_way 20 50 (percent s)
           ("Swap: " ++ str_num (percent s) ++ "%") /\
    code d =
    (if existsb (fun x => num_gt (snd x) 90) datas then CRITICAL
     else if existsb (fun x => num_gt (snd x) 70 && num_lt (snd x) 90) datas
          then WARNING else OK).
Proof.
  intros Hu Hm Hs Hd.
  destruct (check_disk_usage_code os 70 90 datas Hd) as [d [Hdr Hdc]].
  do 2 eexists. exists d. eexists.
  split; [|repeat split; exact Hdc].
  apply run_checks_returns.
  - exact (check_cpu_usage_returns str_num os None None u Hu).
  - exact (check_memory_usage_returns str_num os None None m Hm).
  - exact Hdr.
  - exact (check_swap_usage_returns str_num os None None s Hs).
Qed.

(** X13. With the default thresholds, a CPU reading above 90 is what the
    run selects, whatever the other readings: the colours are 255 on 196
    and the text is the one of the CPU check. *)
Theorem cpu_critical_is_selected :
  forall (os : psutil) (u : Q),
    queries_return os ->
    cpu_percent os 1 = Ok u ->
    90 < u ->
    selection str_num os
    = Ok {| bg_color := 196; fg_color := 255;
            line_text := "CPU: " ++ str_num u ++ "%" |}.
Proof.
  intros os u [_ [[m Hm] [[s Hs] [datas Hd]]]] Hu Hgt.
  destruct (run_checks_codes os u m s datas Hu Hm Hs Hd)
    as (c & cm & d & cs & Hrun & -> & _).
  unfold selection. rewrite Hrun. cbn [bind].
  rewrite choose_find. unfold three_way at 1.
  apply num_gt_true in Hgt. rewrite Hgt. reflexivity.
Qed.

(** X14. With the default thresholds and every query returning, the run
    selects the colours of CRITICAL exactly when the CPU or the memory is
    above 90, a partition is above 90 or the swap is above 50; and it
    selects OK, with the text [OK], exactly when the CPU and the memory are
    at most at 80, the swap at most at 20 and every partition at most at 70
    or exactly at 90. *)
Theorem selection_by_readings :
  forall (os : psutil) (u : Q) (m s : usage_info)
         (datas : list (string * Q)),
    cpu_percent os 1 = Ok u ->
    virtual_memory os = Ok m ->
    swap_memory os = Ok s ->
    disks_datas os = Ok datas ->
    exists sel,
      selection str_num os = Ok sel /\
      ((bg_color sel, fg_color sel) = (196, 255)%Z <->
       90 < u \/ 90 < percent m \/
       Exists (fun d => 90 < snd d) datas \/ 50 < percent s) /\
      (sel = {| bg_color := 190; fg_color := 17; line_text := "OK" |} <->
       u <= 80 /\ percent m <= 80 /\
       Forall (fun d => snd d <= 70 \/ snd d == 90) datas /\
       percent s <= 20).
Proof.
  intros os u m s datas Hu Hm Hs Hd.
  destruct (run_checks_codes os u m s datas Hu Hm Hs Hd)
    as (c & cm & d & cs & Hrun & Hc & Hcm & Hcs & Hdc).
  destruct (choose_total [c; cm; d; cs]) as [sel Hsel].
  exists sel. unfold selection. rewrite Hrun. cbn [bind].
  split; [exact Hsel|].
  assert (Lc : threshold_law 80 90 u c)
    by (rewrite Hc; apply scalar_law; reflexivity).
  assert (Lm : threshold_law 80 90 (percent m) cm)
    by (rewrite Hcm; apply scalar_law; reflexivity).
  assert (Ls : threshold_law 20 50 (percent s) cs)
    by (rewrite Hcs; apply scalar_law; reflexivity).
  destruct Lc as (Lc1 & Lc2 & Lc3 & _), Lm as (Lm1 & Lm2 & Lm3 & _),
           Ls as (Ls1 & Ls2 & Ls3 & _).
  assert (Dcrit : code d = CRITICAL <-> Exists (fun x => 90 < snd x) datas).
  { rewrite Hdc, <- (existsb_above 90 datas).
    destruct (existsb (fun x : string * Q => num_gt (snd x) 90) datas);
      [|destruct (existsb _ datas)]; split; intro X;
      try reflexivity; discriminate X. }
  assert (Dok : code d = OK <->
                Forall (fun x => snd x <= 70 \/ snd x == 90) datas).
  { rewrite Hdc.
    destruct (existsb (fun x : string * Q => num_gt (snd x) 90) datas) eqn:Ea.
    - split; [discriminate|]. intro F. exfalso.
      apply (existsb_above 90 datas) in Ea. apply Exists_exists in Ea.
      destruct Ea as [x [Hin Hx]].
      rewrite Forall_forall in F. destruct (F x Hin); lra.
    - destruct (existsb (fun x : string * Q =>
                           num_gt (snd x) 70 && num_lt (snd x) 90) datas)
        eqn:Eb.
      + split; [discriminate|]. intro F. exfalso.
        apply (existsb_between 70 90 datas) in Eb. apply Exists_exists in Eb.
        destruct Eb as [x [Hin Hx]].
        rewrite Forall_forall in F. destruct (F x Hin); lra.
      + split; [|reflexivity]. intros _. apply Forall_forall. intros x Hin.
        destruct (Qlt_le_dec 90 (snd x)) as [L|L].
        { exfalso. assert (E : Exists (fun x => 90 < snd x) datas)
            by (apply Exists_exists; exists x; split; assumption).
          apply (existsb_above 90 datas) in E. congruence. }
        destruct (Qlt_le_dec 70 (snd x)) as [L'|L']; [|left; exact L'].
        destruct (Qlt_le_dec (snd x) 90) as [L''|L'']; [|right; lra].
        exfalso.
        assert (E : Exists (fun x => 70 < snd x /\ snd x < 90) datas)
          by (apply Exists_exists; exists x; split; [assumption | split;
              assumption]).
        apply (existsb_between 70 90 datas) in E. congruence. }
  assert (Rd : reported d).
  { unfold reported. rewrite Hdc.
    destruct (existsb _ datas); [|destruct (existsb _ datas)]; auto. }
  assert (Rc : reported c) by (rewrite Hc; apply three_way_reported).
  assert (Rm : reported cm) by (rewrite Hcm; apply three_way_reported).
  assert (Rs : reported cs) by (rewrite Hcs; apply three_way_reported).
  split.
  - rewrite (choose_critical_colours _ _ Hsel). simpl.
    rewrite !orb_true_iff, !has_code_true, Lc1, Lm1, Ls1, Dcrit.
    split; intro X; decompose [or] X; auto; discriminate.
  - split.
    + intros ->. apply (proj1 (choose_ok _)) in Hsel.
      simpl in Hsel. destruct Hsel as [X1 X2].
      rewrite !orb_false_iff, !has_code_false in X1, X2.
      unfold reported in Rc, Rm, Rd, Rs.
      repeat split.
      * apply Lc3. tauto.
      * apply Lm3. tauto.
      * apply Dok. tauto.
      * apply Ls3. tauto.
    + intros (X1 & X2 & X3 & X4).
      apply Lc3 in X1. apply Lm3 in X2. apply Dok in X3. apply Ls3 in X4.
      assert (Hok : choose [c; cm; d; cs]
                    = Ok {| bg_color := 190; fg_color := 17;
                            line_text := "OK" |}).
      { apply choose_ok. simpl. unfold has_code.
        rewrite X1, X2, X3, X4. split; reflexivity. }
      congruence.
Qed.

End Further.

(** ** The further properties on concrete machines *)

Lemma disks_datas_one_entry_per_partition_witness :
  disks_datas loaded = Ok [("A", 95); ("B", 50)] /\
  exists disks,
    disk_partitions loaded = Ok disks /\
    map fst [("A", 95); ("B", 50)] = map mountpoint disks /\
    List.length [("A", 95); ("B", 50)] = List.length disks /\
    Forall (fun x : string * Q =>
              exists u, disk_usage loaded (fst x) = Ok u /\ percent u = snd x)
           [("A", 95); ("B", 50)].
Proof.
  split; [reflexivity|].
  exact (disks_datas_one_entry_per_partition loaded
           [("A", 95); ("B", 50)] eq_refl).
Defined.

Lemma check_disk_usage_raises_witness :
  disk_usage unreadable_partition "A" = Ok {| percent := 95 |} /\
  disk_usage unreadable_partition "B"
    = Raise (OSError "No such file or directory") /\
  check_disk_usage str_percent unreadable_partition None None
    = Raise (OSError "No such file or directory").
Proof.
  split; [reflexivity|]. split; [reflexivity|].
  apply (check_disk_usage_raises str_percent unreadable_partition None None
           (OSError "No such file or directory")).
  right. exists [{| mountpoint := "A" |}], {| mountpoint := "B" |},
                [{| mountpoint := "C" |}].
  split; [reflexivity|]. split; [|reflexivity].
  constructor; [|constructor]. eexists. reflexivity.
Defined.

Lemma no_warning_when_crit_not_above_warn_witness :
  90 <= 90 /\
  check_cpu_usage str_percent loaded (Some 90) (Some 90)
    = Ok (mkStatus OK "CPU: 85.0%") /\
  (code (mkStatus OK "CPU: 85.0%") = CRITICAL \/
   code (mkStatus OK "CPU: 85.0%") = OK).
Proof.
  assert (H : 90 <= 90) by discriminate.
  split; [exact H|]. split; [reflexivity|].
  apply (no_warning_when_crit_not_above_warn str_percent loaded 90 90
           (mkStatus OK "CPU: 85.0%") H).
  left. reflexivity.
Defined.

Lemma scalar_checkers_monotone_witness :
  50 <= 85 /\
  exists st st',
    check_cpu_usage str_percent calm (Some 80) (Some 90) = Ok st /\
    check_cpu_usage str_percent loaded (Some 80) (Some 90) = Ok st' /\
    (StatusCode_value (code st) <= StatusCode_value (code st'))%Z.
Proof.
  assert (H : 50 <= 85) by discriminate.
  split; [exact H|].
  exact (proj1 (scalar_checkers_monotone str_percent calm loaded 80 90
                  50 85 {| percent := 85 |} {| percent := 95 |}
                  {| percent := 10 |} {| percent := 10 |}
                  eq_refl eq_refl eq_refl eq_refl eq_refl eq_refl) H).
Defined.

Lemma disk_code_by_usages_witness :
  disks_datas loaded = Ok [("A", 95); ("B", 50)] /\
  exists st,
    check_disk_usage str_percent loaded (Some 70) (Some 90) = Ok st /\
    (code st = CRITICAL <->
     Exists (fun d : string * Q => 90 < snd d) [("A", 95); ("B", 50)]) /\
    (code st = WARNING <->
     ~ Exists (fun d : string * Q => 90 < snd d) [("A", 95); ("B", 50)] /\
     Exists (fun d : string * Q => 70 < snd d /\ snd d < 90)
            [("A", 95); ("B", 50)]) /\
    (code st = OK <->
     Forall (fun d : string * Q =>
               snd d <= 90 /\ ~ (70 < snd d /\ snd d < 90))
            [("A", 95); ("B", 50)]).
Proof.
  split; [reflexivity|].
  exact (disk_code_by_usages str_percent loaded 70 90
           [("A", 95); ("B", 50)] eq_refl).
Defined.

Lemma disk_code_any_order_witness :
  Permutation [("A", 95); ("B", 50)] [("B", 50); ("A", 95)] /\
  exists st st',
    check_disk_usage str_percent loaded (Some 70) (Some 90) = Ok st /\
    check_disk_usage str_percent loaded_reversed (Some 70) (Some 90) = Ok st' /\
    code st = code st'.
Proof.
  assert (P : Permutation [("A", 95); ("B", 50)] [("B", 50); ("A", 95)])
    by apply perm_swap.
  split; [exact P|].
  exact (disk_code_any_order str_percent loaded loaded_reversed 70 90
           [("A", 95); ("B", 50)] [("B", 50); ("A", 95)] eq_refl eq_refl P).
Defined.

Lemma aggregator_colours_any_order_witness :
  Permutation [mkStatus WARNING "CPU: 85.0%"; mkStatus CRITICAL "Swap: 60.0%"]
              [mkStatus CRITICAL "Swap: 60.0%"; mkStatus WARNING "CPU: 85.0%"]
  /\
  exists sel sel',
    choose [mkStatus WARNING "CPU: 85.0%"; mkStatus CRITICAL "Swap: 60.0%"]
      = Ok sel /\
    choose [mkStatus CRITICAL "Swap: 60.0%"; mkStatus WARNING "CPU: 85.0%"]
      = Ok sel' /\
    bg_color sel = bg_color sel' /\
    fg_color sel = fg_color sel'.
Proof.
  assert (P : Permutation
                [mkStatus WARNING "CPU: 85.0%";
                 mkStatus CRITICAL "Swap: 60.0%"]
                [mkStatus CRITICAL "Swap: 60.0%";
                 mkStatus WARNING "CPU: 85.0%"])
    by apply perm_swap.
  split; [exact P|].
  exact (aggregator_colours_any_order _ _ P).
Defined.

Lemma cpu_critical_is_selected_witness :
  queries_return cpu_bound /\
  cpu_percent cpu_bound 1 = Ok 95 /\
  90 < 95 /\
  selection str_percent cpu_bound
  = Ok {| bg_color := 196; fg_color := 255; line_text := "CPU: 95.0%" |}.
Proof.
  assert (H : queries_return cpu_bound)
    by (repeat split; eexists; reflexivity).
  split; [exact H|]. split; [reflexivity|]. split; [reflexivity|].
  exact (cpu_critical_is_selected str_percent cpu_bound 95 H eq_refl eq_refl).
Defined.

Lemma selection_by_readings_witness :
  cpu_percent idle 1 = Ok 0 /\
  virtual_memory idle = Ok {| percent := 0 |} /\
  swap_memory idle = Ok {| percent := 0 |} /\
  disks_datas idle = Ok [] /\
  exists sel,
    selection str_percent idle = Ok sel /\
    ((bg_color sel, fg_color sel) = (196, 255)%Z <->
     90 < 0 \/ 90 < 0 \/
     Exists (fun d : string * Q => 90 < snd d) [] \/ 50 < 0) /\
    (sel = {| bg_color := 190; fg_color := 17; line_text := "OK" |} <->
     0 <= 80 /\ 0 <= 80 /\
     Forall (fun d : string * Q => snd d <= 70 \/ snd d == 90) [] /\
     0 <= 20).
Proof.
  do 4 (split; [reflexivity|]).
  exact (selection_by_readings str_percent idle 0 {| percent := 0 |}
           {| percent := 0 |} [] eq_refl eq_refl eq_refl eq_refl).
Defined.

Lemma more_partitions_never_lower_the_code_witness :
  disks_datas cpu_bound = Ok [("A", 95)] /\
  disks_datas loaded = Ok ([("A", 95)] ++ [("B", 50)])%list /\
  exists st st',
    check_disk_usage str_percent cpu_bound (Some 70) (Some 90) = Ok st /\
    check_disk_usage str_percent loaded (Some 70) (Some 90) = Ok st' /\
    (StatusCode_value (code st) <= StatusCode_value (code st'))%Z.
Proof.
  split; [reflexivity|]. split; [reflexivity|].
  exact (more_partitions_never_lower_the_code str_percent cpu_bound loaded
           70 90 [("A", 95)] [("B", 50)] eq_refl eq_refl).
Defined.
